(** * The chat route: orchestration loop, retry executor and response mapper

    A shallow embedding of [src/app/api/chat/route.ts].  The handler [POST]
    is an async function talking to three remote collaborators (the Gemini
    model, the Custom Search API and the system prompt generator) and to one
    process-wide object, [global.chatHistoryMap].  The collaborators are
    gathered in a record [World] of oracles; the handler is written in a
    small state-and-exception monad that counts the remote calls and logs
    every effect, so that the number of attempts and the delays are read off
    the log. *)

From Stdlib Require Import ZArith QArith String Ascii List Lia Bool.
From stdpp Require Import base option strings list gmap.

Open Scope string_scope.

(** ** JavaScript strings and the two regular expressions

    Strings are byte strings (UTF-8).  All patterns searched by the route are
    ASCII, so searching bytes and searching UTF-16 code units agree. *)

Module Js.

Definition dquote : ascii := ascii_of_nat 34.

(** [stripPrefix p s] is [Some rest] when [s = p ++ rest]. *)
Fixpoint stripPrefix (p s : string) : option string :=
  match p with
  | EmptyString => Some s
  | String a p' =>
      match s with
      | EmptyString => None
      | String b s' => if Ascii.eqb a b then stripPrefix p' s' else None
      end
  end.

(** [firstMatch f s]: try [f] at every start position of [s], left to right,
    the way [String.prototype.match] searches with a non-global regex. *)
Fixpoint firstMatch {A : Type} (f : string -> option A) (s : string) : option A :=
  match f s with
  | Some x => Some x
  | None =>
      match s with
      | EmptyString => None
      | String _ s' => firstMatch f s'
      end
  end.

(** [String.prototype.includes]. *)
Definition includes (s p : string) : bool :=
  match firstMatch (stripPrefix p) s with
  | Some _ => true
  | None => false
  end.

(** [\d]: an ASCII digit. *)
Definition isDigit (c : ascii) : bool :=
  let n := nat_of_ascii c in (48 <=? n)%nat && (n <=? 57)%nat.

(** [\d*], greedy: the longest digit prefix and what follows it. *)
Fixpoint spanDigits (s : string) : string * string :=
  match s with
  | EmptyString => (EmptyString, EmptyString)
  | String c s' =>
      if isDigit c
      then let (d, r) := spanDigits s' in (String c d, r)
      else (EmptyString, s)
  end.

Definition digitValue (c : ascii) : Z := Z.of_nat (nat_of_ascii c) - 48.

(** The value of a string of decimal digits. *)
Fixpoint decimal (acc : Z) (s : string) : Z :=
  match s with
  | EmptyString => acc
  | String c s' => decimal (10 * acc + digitValue c) s'
  end.

(** [parseInt(d, 10)] on a capture of [\d+].  The route only compares the
    result with 503, 429 and 400, which the exact value decides. *)
Definition parseInt (d : string) : Z := decimal 0 d.

(** [parseFloat] on a capture of [\d+(\.\d+)?], as an exact rational: the
    binary64 rounding of JavaScript numbers is left out of the model. *)
Definition parseFloat (s : string) : Q :=
  let (d, r) := spanDigits s in
  match r with
  | String "."%char r' =>
      let (f, _) := spanDigits r' in
      Qmake (decimal 0 (d +:+ f)) (Z.to_pos (10 ^ Z.of_nat (String.length f)))
  | _ => inject_Z (decimal 0 d)
  end.

(** The four letters c, o, d, e, a double quote and a colon: the literal that
    opens the status-code regex and the substring test of the doubling. *)
Definition codeKey : string := "code" +:+ String dquote ":".

(** The status-code regex (the literal above, then [(\d+)]) anchored at the
    start of [s]: capture group 1. *)
Definition codeAt (s : string) : option string :=
  match stripPrefix codeKey s with
  | Some rest =>
      match spanDigits rest with
      | (EmptyString, _) => None
      | (d, _) => Some d
      end
  | None => None
  end.

(** [/retry in (\d+(\.\d+)?)s/] anchored at the start of [s]: capture group 1.
    After the greedy [\d+] no shorter run can be followed by [.] or [s], so
    backtracking never finds a match the greedy reading misses. *)
Definition retryInAt (s : string) : option string :=
  match stripPrefix "retry in " s with
  | Some rest =>
      match spanDigits rest with
      | (EmptyString, _) => None
      | (d, String "."%char r') =>
          match spanDigits r' with
          | (String c f, String "s"%char _) => Some (d +:+ "." +:+ String c f)
          | _ => None
          end
      | (d, String "s"%char _) => Some d
      | _ => None
      end
  | None => None
  end.

End Js.

(** ** Values thrown and caught *)

(** What a [catch (error)] clause can receive: an [Error] instance with its
    message, or any other thrown value ([error instanceof Error] is false). *)
Inductive Exn : Type :=
  | ErrorObj (message : string)
  | OtherValue.

Inductive Attempt (A : Type) : Type :=
  | Returned (a : A)
  | Threw (e : Exn).
Arguments Returned {A} a.
Arguments Threw {A} e.

(** [const statusCode = statusCodeMatch ? parseInt(statusCodeMatch[1], 10) : 0] *)
Definition statusCodeOf (message : string) : Z :=
  match Js.firstMatch Js.codeAt message with
  | Some d => Js.parseInt d
  | None => 0
  end.

(** The test of line 189: [error.message.includes] of the literal above
    followed by 503. *)
Definition mentions503 (message : string) : bool :=
  Js.includes message (Js.codeKey +:+ "503").

(** ** Data model *)

(** [type Message = { role: 'user' | 'assistant'; content: string }] *)
Inductive Role : Type := user | assistant.

Record Message : Type := { role : Role; content : string }.

(** The payload the search tool hands back: [{ search_snippet: ... }]. *)
Record ToolPayload : Type := { search_snippet : string }.

(** [{ query, result }], the value returned by [googleSearch]. *)
Record ToolResult : Type := { tr_query : option string; result : ToolPayload }.

(** [args] of a function call; [query] may be absent from the object. *)
Record Args : Type := { query : option string }.

(** A function call of the SDK: both fields are optional there. *)
Record FunctionCall : Type := { name : option string; args : option Args }.

Inductive Part : Type :=
  | TextPart (text : string)
  | FunctionCallPart (call : FunctionCall)
  | FunctionResponsePart (fname : string) (response : ToolPayload).

(** [Content] of the SDK: one turn of the working conversation. *)
Record Content : Type := { c_role : string; parts : list Part }.

Record Candidate : Type := { c_content : option Content }.

(** The three things the route reads from a [generateContent] response.
    An absent [functionCalls] or [candidates] is the empty list: the route
    only looks at index 0 through optional chaining. *)
Record Response : Type := {
  r_text : option string;
  functionCalls : list FunctionCall;
  candidates : list Candidate
}.

(** An item of the Custom Search answer: the three fields the route keeps
    and the rest, which [formatSearchResults] drops. *)
Record SearchItem : Type := {
  title : string;
  snippet : string;
  link : string;
  otherFields : list (string * string)
}.

(** A stored history.  [None] is the [undefined] that [messages[-1]] yields
    when the request carries an empty [messages] array. *)
Abbreviation History := (list (option Message)).

(** [global.chatHistoryMap]: [None] while the global is still undefined. *)
Abbreviation Global := (option (gmap string History)).

(** The JSON body of the request. *)
Record Request : Type := { messages : list Message; sessionId : string }.

Inductive Body : Type :=
  | MessageBody (message : string)
  | ErrorBody (error : string).

(** How a call of [POST] ends: a [NextResponse.json] with its status, or an
    exception that leaves the handler (the promise is rejected). *)
Inductive Outcome : Type :=
  | Responded (status : Z) (body : Body)
  | Rejected (e : Exn).

(** ** The outside world *)

(** The remote collaborators.  A remote call may answer differently each
    time, so each oracle receives the number of calls of its kind already
    made while serving the request.  [generateSystemPrompt] lives outside
    this file of the repository; it is taken as the string it resolves to.
    [stringify] is [JSON.stringify] on the formatted search results. *)
Record World : Type := {
  GEMINI_API_KEY : option string;
  generateSystemPrompt : string;
  generateContent : nat -> string -> list Content -> Attempt Response;
  cseList : nat -> option string -> Attempt (option (list SearchItem));
  stringify : list SearchItem -> string
}.

Inductive Event : Type :=
  | Generate (callNo : nat) (contents : list Content)
  | Delay (ms : Q)
  | Search (q : option string).

(** Calls made so far and the log of effects, oldest first. *)
Record Effects : Type := { generated : nat; searched : nat; log : list Event }.

Definition noEffects : Effects := {| generated := 0; searched := 0; log := [] |}.

(** ** A state-and-exception monad for the handler *)

Definition M (A : Type) : Type := Effects -> Attempt A * Effects.

Definition ret {A : Type} (a : A) : M A := fun s => (Returned a, s).

Definition throw {A : Type} (e : Exn) : M A := fun s => (Threw e, s).

Definition bind {A B : Type} (m : M A) (k : A -> M B) : M B :=
  fun s =>
    match m s with
    | (Returned a, s') => k a s'
    | (Threw e, s') => (Threw e, s')
    end.

(** [try { m } catch (error) { h error }] *)
Definition tryCatch {A : Type} (m : M A) (h : Exn -> M A) : M A :=
  fun s =>
    match m s with
    | (Returned a, s') => (Returned a, s')
    | (Threw e, s') => h e s'
    end.

Notation "'let*' x ':=' m 'in' k" := (bind m (fun x => k))
  (at level 10, x name, m at level 100, k at level 200).

Definition emit (ev : Event) : M unit :=
  fun s => (Returned tt,
            {| generated := generated s; searched := searched s;
               log := log s ++ [ev] |}).

(** [await ai.models.generateContent({ model, contents, config })] *)
Definition callModel (w : World) (systemInstruction : string)
    (contents : list Content) : M Response :=
  fun s =>
    (generateContent w (generated s) systemInstruction contents,
     {| generated := S (generated s); searched := searched s;
        log := log s ++ [Generate (generated s) contents] |}).

(** [await customsearch.cse.list({ auth, cx, q, num: 3 })], giving
    [response.data.items]. *)
Definition callSearch (w : World) (q : option string)
    : M (option (list SearchItem)) :=
  fun s =>
    (cseList w (searched s) q,
     {| generated := generated s; searched := S (searched s);
        log := log s ++ [Search q] |}).

(** [const delay = (ms) => new Promise(resolve => setTimeout(resolve, ms))] *)
Definition delay (ms : Q) : M unit := emit (Delay ms).

(** ** The search tool (lines 35-82) *)

Definition formatSearchResults (searchResults : list SearchItem)
    : list SearchItem :=
  map (fun item => {| title := title item; snippet := snippet item;
                      link := link item; otherFields := [] |})
      searchResults.

(** [googleSearch]: its own [try]/[catch] turns every failure of the search
    API into a payload, so the function always returns. *)
Definition googleSearch (w : World) (query : option string) : M ToolResult :=
  tryCatch
    (let* items := callSearch w query in
     let searchResults := formatSearchResults (default [] items) in
     if (length searchResults =? 0)%nat
     then ret {| tr_query := query;
                 result := {| search_snippet :=
                   "検索結果は見つかりませんでした。" |} |}
     else ret {| tr_query := query;
                 result := {| search_snippet :=
                   "【Web検索結果の抜粋】: " +:+ stringify w searchResults |} |})
    (fun _ =>
       ret {| tr_query := query;
              result := {| search_snippet :=
                "検索中にエラーが発生しました。Web検索APIでエラーが発生しました。" |} |}).

(** ** The retry executor (lines 134-196) *)

Definition maxRetries : nat := 5.

Definition baseDelay : Q := 2000.

(** Lines 168-184: [(shouldRetry, retryDelayMs)] for a caught [error]. *)
Definition retryDecision (currentDelay : Q) (error : Exn) : bool * Q :=
  match error with
  | ErrorObj message =>
      let statusCode := statusCodeOf message in
      if (statusCode =? 503)%Z then (true, currentDelay)
      else if (statusCode =? 429)%Z then
        match Js.firstMatch Js.retryInAt message with
        | Some m => (true, Js.parseFloat m * 1000 + 500)%Q
        | None => (true, currentDelay)
        end
      else (false, currentDelay)
  | OtherValue => (false, currentDelay)
  end.

(** Lines 189-191, reached only with an [Error] instance. *)
Definition nextDelay (currentDelay : Q) (error : Exn) : Q :=
  match error with
  | ErrorObj message =>
      if mentions503 message then (currentDelay * 2)%Q else currentDelay
  | OtherValue => currentDelay
  end.

(** The [for (let attempt = 0; attempt < maxRetries; attempt++)] loop.
    [fuel] is [maxRetries - attempt]; the result is the variable [response],
    [None] while it is still undefined. *)
Fixpoint retryLoop (w : World) (systemInstruction : string)
    (contents : list Content) (fuel attempt : nat) (currentDelay : Q)
    : M (option Response) :=
  match fuel with
  | O => ret None
  | S fuel' =>
      tryCatch
        (let* response := callModel w systemInstruction contents in
         ret (Some response))
        (fun error =>
           let (shouldRetry, retryDelayMs) := retryDecision currentDelay error in
           if shouldRetry && (attempt <? maxRetries - 1)%nat
           then
             let* _ := delay retryDelayMs in
             retryLoop w systemInstruction contents fuel' (S attempt)
                       (nextDelay currentDelay error)
           else throw error)
  end.

Definition generateWithRetry (w : World) (systemInstruction : string)
    (contents : list Content) : M (option Response) :=
  retryLoop w systemInstruction contents maxRetries 0 baseDelay.

(** ** The tool-calling loop (lines 119-234) *)

Definition maxToolCalls : nat := 5.

(** The variables the loop updates. *)
Record LoopVars : Type := {
  contents : list Content;
  contentsLength : nat;
  fullResponse : option Response
}.

(** [response?.functionCalls?.[0]] *)
Definition firstCall (response : option Response) : option FunctionCall :=
  match response with
  | Some r => head (functionCalls r)
  | None => None
  end.

(** [response?.candidates?.[0]?.content] *)
Definition firstCandidateContent (response : option Response)
    : option Content :=
  match response with
  | Some r =>
      match head (candidates r) with
      | Some c => c_content c
      | None => None
      end
  | None => None
  end.

(** The second turn pushed at lines 218-226. *)
Definition functionTurn (toolResult : ToolResult) : Content :=
  {| c_role := "function";
     parts := [FunctionResponsePart "googleSearch" (result toolResult)] |}.

(** How a template literal prints an optional name. *)
Definition showName (n : option string) : string :=
  match n with
  | Some s => s
  | None => "undefined"
  end.

Definition unknownFunction (functionName : option string) : Exn :=
  ErrorObj ("Unknown function call: " +:+ showName functionName).

(** The [TypeError] of [args.query] when [args] is undefined. *)
Definition argsUndefined : Exn :=
  ErrorObj "Cannot read properties of undefined (reading 'query')".

Definition isGoogleSearch (functionName : option string) : bool :=
  match functionName with
  | Some s => String.eqb s "googleSearch"
  | None => false
  end.

(** How one pass through the loop body ends: at its closing brace, or at a
    [break]. *)
Inductive Step : Type :=
  | Next (v : LoopVars)
  | Break (v : LoopVars).

(** The loop guard of lines 127-131: with [i > 0] and no growth of
    [contents] since the last pass, the loop is left. *)
Definition stalled (i : nat) (v : LoopVars) : bool :=
  negb (contentsLength v <? length (contents v))%nat && (0 <? i)%nat.

(** The body of the [for (let i = 0; i < maxToolCalls; i++)] loop
    (lines 126-233), for the pass numbered [i]. *)
Definition round (w : World) (systemInstruction : string) (i : nat)
    (v : LoopVars) : M Step :=
  if stalled i v then ret (Break v)
  else
    let contentsLength' :=
      if (contentsLength v <? length (contents v))%nat
      then length (contents v) else contentsLength v in
    let* response := generateWithRetry w systemInstruction (contents v) in
    let v1 := {| contents := contents v;
                 contentsLength := contentsLength';
                 fullResponse := response |} in
    match firstCall response with
    | None => ret (Break v1)
    | Some call =>
        if isGoogleSearch (name call) then
          match args call with
          | None => throw argsUndefined
          | Some a =>
              let* toolResult := googleSearch w (query a) in
              match firstCandidateContent response with
              | Some c =>
                  ret (Next {| contents :=
                                 (contents v ++ [c; functionTurn toolResult])%list;
                               contentsLength := contentsLength';
                               fullResponse := response |})
              | None => ret (Break v1)
              end
          end
        else throw (unknownFunction (name call))
    end.

(** The loop itself; [fuel] is [maxToolCalls - i].  The result holds the
    variables at loop exit. *)
Fixpoint toolLoop (w : World) (systemInstruction : string)
    (fuel i : nat) (v : LoopVars) : M LoopVars :=
  match fuel with
  | O => ret v
  | S fuel' =>
      let* step := round w systemInstruction i v in
      match step with
      | Break v' => ret v'
      | Next v' => toolLoop w systemInstruction fuel' (S i) v'
      end
  end.

(** ** The handler (lines 85-274) *)

Definition AI_NICKNAME : string := "CATミュージックカレッジ".

(** The reply used when [fullResponse?.text] is null or undefined. *)
Definition fallbackReply : string :=
  "ごめん、" +:+ AI_NICKNAME +:+ "はマジでうまく返せへんかったわ😭！".

(** [fullResponse?.text ?? fallback] *)
Definition replyOf (fullResponse : option Response) : string :=
  match fullResponse with
  | Some r => default fallbackReply (r_text r)
  | None => fallbackReply
  end.

(** The callback of [chatHistory.map] at lines 108-114. *)
Definition toContent (msg : Message) : Content :=
  {| c_role := match role msg with user => "user" | assistant => "model" end;
     parts := [TextPart (content msg)] |}.

(** [chatHistory.map(...)]: reading [msg.role] of an undefined element
    throws, which [None] stands for. *)
Fixpoint toContents (chatHistory : History) : option (list Content) :=
  match chatHistory with
  | [] => Some []
  | None :: _ => None
  | Some msg :: rest =>
      match toContents rest with
      | Some cs => Some (toContent msg :: cs)
      | None => None
      end
  end.

Definition roleUndefined : Exn :=
  ErrorObj "Cannot read properties of undefined (reading 'role')".

(** The outer [catch] (lines 245-273): the response for a caught error. *)
Definition errorResponse (error : Exn) : Outcome :=
  match error with
  | ErrorObj message =>
      let statusCode := statusCodeOf message in
      if (statusCode =? 503)%Z then
        Responded 503 (ErrorBody "現在サービスが大変混み合っています。リトライを試みましたが解決しませんでした。時間を置いて再度お試しください。")
      else if (statusCode =? 429)%Z then
        Responded 429 (ErrorBody "現在、APIの利用制限（クォータ）を超過しています。数分待ってから再度お試しください。")
      else if Js.includes message "API_KEY" then
        Responded 401 (ErrorBody "認証情報に問題があります。APIキーの設定を確認してください。")
      else if (statusCode =? 400)%Z then
        Responded 400 (ErrorBody "無効なリクエストが送信されました。アプリケーション側に問題がある可能性があります。")
      else
        Responded 500 (ErrorBody "サーバーエラーが発生しました。詳細については、コンソールログを確認してください。")
  | OtherValue =>
      Responded 500 (ErrorBody "申し訳ありません。サーバーとの通信中に予期せぬエラーが発生しました。")
  end.

(** [!apiKey]: the variable is unset or the empty string. *)
Definition apiKeyMissing (w : World) : bool :=
  match GEMINI_API_KEY w with
  | None => true
  | Some k => String.eqb k ""
  end.

(** Lines 119-238: the body of the [try] up to [reply]. *)
Definition orchestrate (w : World) (systemInstruction : string)
    (contents : list Content) : M LoopVars :=
  toolLoop w systemInstruction maxToolCalls 0
    {| contents := contents; contentsLength := length contents;
       fullResponse := None |}.

(** [chatHistoryMap.get(sessionId) || []] on a map created on demand. *)
Definition storedHistory (g : Global) (sessionId : string) : History :=
  default [] (default ∅ g !! sessionId).

(** [export async function POST(req)].  The result is the outcome, the
    global after the call and the effects performed. *)
Definition POST (w : World) (g : Global) (req : Request)
    : Outcome * Global * Effects :=
  if apiKeyMissing w then
    (Responded 500 (ErrorBody "Gemini APIキーが設定されていません。"),
     g, noEffects)
  else
    let chatHistoryMap := default ∅ g in
    let chatHistory := storedHistory g (sessionId req) in
    let currentMessage := last (messages req) in
    let chatHistory1 := (chatHistory ++ [currentMessage])%list in
    let chatHistoryMap1 := <[sessionId req := chatHistory1]> chatHistoryMap in
    let systemInstruction := generateSystemPrompt w in
    match toContents chatHistory1 with
    | None => (Rejected roleUndefined, Some chatHistoryMap1, noEffects)
    | Some contents =>
        match orchestrate w systemInstruction contents noEffects with
        | (Returned v, eff) =>
            let reply := replyOf (fullResponse v) in
            let chatHistory2 :=
              (chatHistory1
                 ++ [Some {| role := assistant; content := reply |}])%list in
            (Responded 200 (MessageBody reply),
             Some (<[sessionId req := chatHistory2]> chatHistoryMap1),
             eff)
        | (Threw error, eff) =>
            (errorResponse error, Some chatHistoryMap1, eff)
        end
    end.

(** ** Reading a run *)

Definition outcomeOf (r : Outcome * Global * Effects) : Outcome := r.1.1.
Definition globalOf (r : Outcome * Global * Effects) : Global := r.1.2.
Definition effectsOf (r : Outcome * Global * Effects) : Effects := r.2.

(** The delays of a log, in order. *)
Fixpoint delaysOf (l : list Event) : list Q :=
  match l with
  | [] => []
  | Delay ms :: l' => ms :: delaysOf l'
  | _ :: l' => delaysOf l'
  end.

(** The queries sent to the search tool, in order. *)
Fixpoint searchesOf (l : list Event) : list (option string) :=
  match l with
  | [] => []
  | Search q :: l' => q :: searchesOf l'
  | _ :: l' => searchesOf l'
  end.

(** ** Scripted worlds, to run the handler on concrete inputs *)

(** A response with text and no function call. *)
Definition textResponse (t : string) : Response :=
  {| r_text := Some t; functionCalls := []; candidates := [] |}.

(** A response asking for [fname] with query [q], as the SDK builds it: the
    call is a part of the first candidate's content. *)
Definition callResponse (t : option string) (fname q : string) : Response :=
  let fc := {| name := Some fname; args := Some {| query := Some q |} |} in
  {| r_text := t;
     functionCalls := [fc];
     candidates :=
       [{| c_content :=
             Some {| c_role := "model"; parts := [FunctionCallPart fc] |} |}] |}.

(** The model answers the [n]-th call with the [n]-th entry of [script],
    and with [final] once the script is used up; searches find nothing. *)
Definition scripted (key : option string) (script : list (Attempt Response))
    (final : Attempt Response) : World :=
  {| GEMINI_API_KEY := key;
     generateSystemPrompt := "system prompt";
     generateContent := fun n _ _ => default final (script !! n);
     cseList := fun _ _ => Returned None;
     stringify := fun _ => "[]" |}.

(** A JSON member with a string value. *)
Definition jsonField (key value : string) : string :=
  String Js.dquote key +:+ String Js.dquote ":"
  +:+ String Js.dquote value +:+ String Js.dquote "".

(** The message of an upstream error: a JSON text with the status [code]
    and further members [rest]. *)
Definition apiErrorMessage (code rest : string) : string :=
  "{" +:+ String Js.dquote "error" +:+ String Js.dquote ":{"
  +:+ String Js.dquote Js.codeKey +:+ code +:+ "," +:+ rest +:+ "}}".

Definition apiError (code rest : string) : Exn :=
  ErrorObj (apiErrorMessage code rest).

Definition hello : Request :=
  {| messages := [{| role := user; content := "hello" |}];
     sessionId := "s1" |}.

(** ** Vocabulary of the statements *)

(** The effects of the three primitive steps. *)
Definition afterCall (s : Effects) (cs : list Content) : Effects :=
  {| generated := S (generated s); searched := searched s;
     log := log s ++ [Generate (generated s) cs] |}.

Definition afterDelay (s : Effects) (ms : Q) : Effects :=
  {| generated := generated s; searched := searched s;
     log := log s ++ [Delay ms] |}.

Definition afterSearch (s : Effects) (q : option string) : Effects :=
  {| generated := generated s; searched := S (searched s);
     log := log s ++ [Search q] |}.

(** The classification of lines 175-183: status 503 or 429 of an [Error]. *)
Definition retryable (error : Exn) : bool :=
  match error with
  | ErrorObj message =>
      (statusCodeOf message =? 503)%Z || (statusCodeOf message =? 429)%Z
  | OtherValue => false
  end.

(** [contentsLength] after the guard of lines 127-131 let the pass through. *)
Definition seenLength (v : LoopVars) : nat :=
  if (contentsLength v <? length (contents v))%nat
  then length (contents v) else contentsLength v.

(** A response whose first function call the loop dispatches to the end:
    the search tool is named, [args] is present, and the first candidate
    carries its content. *)
Definition dispatchable (r : Response) : bool :=
  match head (functionCalls r) with
  | Some call =>
      isGoogleSearch (name call)
      && bool_decide (is_Some (args call))
      && bool_decide (is_Some (firstCandidateContent (Some r)))
  | None => false
  end.

(** The history of the session served, once the current message is pushed
    (line 101). *)
Definition pushedHistory (g : Global) (req : Request) : History :=
  (storedHistory g (sessionId req) ++ [last (messages req)])%list.

(** A response with a body [{ error }], or an exception leaving the handler:
    the request did not end with a reply. *)
Definition failed (o : Outcome) : bool :=
  match o with
  | Responded _ (MessageBody _) => false
  | _ => true
  end.

(** What the handler pushes after the user turn: the assistant turn of a
    reply, nothing otherwise. *)
Definition assistantTurn (o : Outcome) : History :=
  match o with
  | Responded _ (MessageBody reply) =>
      [Some {| role := assistant; content := reply |}]
  | _ => []
  end.

(** The bodies of the two responses concerned with the credential. *)
Definition keyNotConfigured : Body :=
  ErrorBody "Gemini APIキーが設定されていません。".

Definition credentialProblem : Body :=
  ErrorBody "認証情報に問題があります。APIキーの設定を確認してください。".

(** ** Sample errors, responses and worlds *)

Definition helloContents : list Content :=
  [toContent {| role := user; content := "hello" |}].

(** The usual 503 and 400 of the upstream API. *)
Definition overloaded : Exn :=
  apiError "503" (jsonField "status" "UNAVAILABLE").

Definition badRequest : Exn :=
  apiError "400" (jsonField "status" "INVALID_ARGUMENT").

(** A 429, with the advice its message gives. *)
Definition rateLimited (advice : string) : Exn :=
  apiError "429" (jsonField "message" advice).

(** The upstream refuses the key: status 400 with reason API_KEY_INVALID. *)
Definition invalidKeyMessage : string :=
  apiErrorMessage "400" (jsonField "reason" "API_KEY_INVALID").

Definition invalidKey : Exn := ErrorObj invalidKeyMessage.

(** A 503 whose status code is written with a leading zero. *)
Definition zeroPaddedMessage : string :=
  apiErrorMessage "0503" (jsonField "status" "UNAVAILABLE").

Definition overloadedZeroPadded : Exn := ErrorObj zeroPaddedMessage.

(** A 429 whose details quote a 503: the first status code of the message
    is 429, and the text searched at line 189 occurs further on. *)
Definition quoting503Message : string :=
  apiErrorMessage "429"
    (String Js.dquote "details" +:+ String Js.dquote ":[{"
     +:+ String Js.dquote Js.codeKey +:+ "503}]").

Definition rateLimitedQuoting503 : Exn := ErrorObj quoting503Message.

(** A response with neither text nor function call, as the SDK gives for a
    blocked prompt. *)
Definition emptyResponse : Response :=
  {| r_text := None; functionCalls := []; candidates := [] |}.

(** A response carrying two function calls: a search, then a call of a tool
    that does not exist. *)
Definition twoCalls : Response :=
  let first := {| name := Some "googleSearch";
                  args := Some {| query := Some "cat" |} |} in
  let second := {| name := Some "lookup";
                   args := Some {| query := Some "dog" |} |} in
  {| r_text := None;
     functionCalls := [first; second];
     candidates :=
       [{| c_content :=
             Some {| c_role := "model";
                     parts := [FunctionCallPart first;
                               FunctionCallPart second] |} |}] |}.

(** No key is configured. *)
Definition noKeyWorld : World :=
  scripted None [] (Returned (textResponse "hi")).

Definition badKeyWorld : World := scripted (Some "bad") [] (Threw invalidKey).

(** Every call fails with [e]. *)
Definition alwaysFailing (e : Exn) : World :=
  scripted (Some "key") [] (Threw e).

(** Two failures with [e], then an answer. *)
Definition failsTwice (e : Exn) : World :=
  scripted (Some "key") [Threw e; Threw e] (Returned (textResponse "ok")).

(** The model answers at once. *)
Definition answeringWorld : World :=
  scripted (Some "key") [] (Returned (textResponse "hi")).

(** The model answers with neither text nor call. *)
Definition silentWorld : World :=
  scripted (Some "key") [] (Returned emptyResponse).

(** The model asks for one search after the other. *)
Definition searchingWorld : World :=
  scripted (Some "key") []
           (Returned (callResponse (Some "still searching") "googleSearch" "cat")).

(** The model asks for one search after the other and never says a word. *)
Definition muteSearchingWorld : World :=
  scripted (Some "key") [] (Returned (callResponse None "googleSearch" "cat")).

(** The model asks for a tool that does not exist. *)
Definition strayWorld : World :=
  scripted (Some "key") [] (Returned (callResponse None "lookup" "cat")).

(** The model asks for two tools at once, then answers. *)
Definition twoCallsWorld : World :=
  scripted (Some "key") [Returned twoCalls] (Returned (textResponse "done")).

(** ** Further vocabulary: payloads, statuses, counts *)

(** The three texts a search can hand to the model (lines 63, 72, 79). *)
Definition noResultsText : string := "検索結果は見つかりませんでした。".

Definition excerptPrefix : string := "【Web検索結果の抜粋】: ".

Definition searchFailedText : string :=
  "検索中にエラーが発生しました。Web検索APIでエラーが発生しました。".

(** The body of the default branch of the outer catch (line 268). *)
Definition serverError : Body :=
  ErrorBody "サーバーエラーが発生しました。詳細については、コンソールログを確認してください。".

(** The bodies of the 503 and 429 responses (lines 257 and 260). *)
Definition stillOverloaded : Body :=
  ErrorBody "現在サービスが大変混み合っています。リトライを試みましたが解決しませんでした。時間を置いて再度お試しください。".

Definition quotaExceeded : Body :=
  ErrorBody "現在、APIの利用制限（クォータ）を超過しています。数分待ってから再度お試しください。".

(** An [Error] whose message has [code] as its first status code, written
    with exactly these digits. *)
Definition statusWritten (code : string) (e : Exn) : Prop :=
  exists m : string, e = ErrorObj m /\ Js.firstMatch Js.codeAt m = Some code.

(** A 429 that advises no wait and does not contain the text of line 189. *)
Definition plainRateLimit (e : Exn) : Prop :=
  exists m : string,
    e = ErrorObj m
    /\ statusCodeOf m = 429%Z
    /\ Js.firstMatch Js.retryInAt m = None
    /\ mentions503 m = false.

(** The statuses the handler can answer with. *)
Definition statuses : list Z := [200; 400; 401; 429; 500; 503]%Z.

(** The number of model calls, waits and searches of a log. *)
Fixpoint callsIn (l : list Event) : nat :=
  match l with
  | [] => 0
  | Generate _ _ :: l' => S (callsIn l')
  | _ :: l' => callsIn l'
  end.

Definition waitsIn (l : list Event) : nat := length (delaysOf l).

Definition searchesIn (l : list Event) : nat := length (searchesOf l).

(** The contents sent to the model, call after call. *)
Fixpoint inputsOf (l : list Event) : list (list Content) :=
  match l with
  | [] => []
  | Generate _ cs :: l' => cs :: inputsOf l'
  | _ :: l' => inputsOf l'
  end.

(** [doublings d n]: [n] waits starting at [d], each twice the one before. *)
Fixpoint doublings (d : Q) (n : nat) : list Q :=
  match n with
  | O => []
  | S n' => d :: doublings (d * 2)%Q n'
  end.

(** The waits the backoff alone can give: 2000 ms doubled up to three
    times. *)
Definition backoffValues : list Q := [2000; 4000; 8000; 16000]%Q.

(** The error is a 429 whose message advises a wait: the test of lines
    177-179. *)
Definition advises (e : Exn) : bool :=
  match e with
  | ErrorObj m =>
      (statusCodeOf m =? 429)%Z
      && match Js.firstMatch Js.retryInAt m with
         | Some _ => true
         | None => false
         end
  | OtherValue => false
  end.

(** No error the model throws advises a wait. *)
Definition neverAdvised (w : World) : Prop :=
  forall (n : nat) (sys : string) (cs : list Content) (e : Exn),
    generateContent w n sys cs = Threw e -> advises e = false.

(** The waits the executor makes when the errors [es] are retried in turn,
    starting from the backoff [d], and the backoff it is left with. *)
Fixpoint waitsFor (d : Q) (es : list Exn) : list Q :=
  match es with
  | [] => []
  | e :: es' => (retryDecision d e).2 :: waitsFor (nextDelay d e) es'
  end.

Fixpoint backoffAfter (d : Q) (es : list Exn) : Q :=
  match es with
  | [] => d
  | e :: es' => backoffAfter (nextDelay d e) es'
  end.

(** The ways a pass of the tool loop can end once the retry executor has
    handed back [response], with the effects [s1] up to then (lines
    198-233). *)
Inductive PassEnd (w : World) (v : LoopVars) (response : option Response)
    (s1 : Effects) : Attempt Step * Effects -> Prop :=
  | Converged :
      firstCall response = None ->
      PassEnd w v response s1
        (Returned (Break {| contents := contents v;
                            contentsLength := seenLength v;
                            fullResponse := response |}), s1)
  | StrayCall (call : FunctionCall) :
      firstCall response = Some call ->
      isGoogleSearch (name call) = false ->
      PassEnd w v response s1 (Threw (unknownFunction (name call)), s1)
  | BareCall (call : FunctionCall) :
      firstCall response = Some call ->
      isGoogleSearch (name call) = true ->
      args call = None ->
      PassEnd w v response s1 (Threw argsUndefined, s1)
  | Dispatched (call : FunctionCall) (a : Args) (c : Content)
      (tr : ToolResult) :
      firstCall response = Some call ->
      isGoogleSearch (name call) = true ->
      args call = Some a ->
      firstCandidateContent response = Some c ->
      googleSearch w (query a) s1 = (Returned tr, afterSearch s1 (query a)) ->
      PassEnd w v response s1
        (Returned (Next {| contents :=
                             (contents v ++ [c; functionTurn tr])%list;
                           contentsLength := seenLength v;
                           fullResponse := response |}),
         afterSearch s1 (query a))
  | HollowCall (call : FunctionCall) (a : Args) :
      firstCall response = Some call ->
      isGoogleSearch (name call) = true ->
      args call = Some a ->
      firstCandidateContent response = None ->
      PassEnd w v response s1
        (Returned (Break {| contents := contents v;
                            contentsLength := seenLength v;
                            fullResponse := response |}),
         afterSearch s1 (query a)).

(** No character of the string is a double quote. *)
Fixpoint quoteFree (s : string) : bool :=
  match s with
  | EmptyString => true
  | String c s' => negb (Ascii.eqb c Js.dquote) && quoteFree s'
  end.

(** A search request of the model without [args]. *)
Definition bareCall : Response :=
  let fc := {| name := Some "googleSearch"; args := None |} in
  {| r_text := Some "let me look"; functionCalls := [fc];
     candidates :=
       [{| c_content :=
             Some {| c_role := "model"; parts := [FunctionCallPart fc] |} |}] |}.

(** A search request of the model whose candidate has no content. *)
Definition hollowCall : Response :=
  {| r_text := Some "let me look";
     functionCalls :=
       [{| name := Some "googleSearch";
           args := Some {| query := Some "cat" |} |}];
     candidates := [{| c_content := None |}] |}.

(** The model asks for a search without arguments, or with a candidate that
    has no content. *)
Definition bareCallWorld : World :=
  scripted (Some "key") [] (Returned bareCall).

Definition hollowCallWorld : World :=
  scripted (Some "key") [] (Returned hollowCall).

(** The model asks for one search, then answers. *)
Definition searchOnceWorld : World :=
  scripted (Some "key")
           [Returned (callResponse None "googleSearch" "cat")]
           (Returned (textResponse "cats purr")).

(** A search API that finds one item, and one that fails. *)
Definition oneItem : SearchItem :=
  {| title := "Cats"; snippet := "About cats"; link := "https://cats.example";
     otherFields := [("kind", "customsearch#result")] |}.

Definition findingWorld : World :=
  {| GEMINI_API_KEY := Some "key";
     generateSystemPrompt := "system prompt";
     generateContent := fun _ _ _ => Returned (textResponse "hi");
     cseList := fun _ _ => Returned (Some [oneItem]);
     stringify := fun items => "[" +:+ String.concat "," (map title items) +:+ "]" |}.

(** * Properties *)

(** ** Reading the log *)

Lemma delaysOf_app (l1 l2 : list Event) :
  delaysOf (l1 ++ l2) = (delaysOf l1 ++ delaysOf l2)%list.
Proof.
  induction l1 as [|ev l1 IH]; [reflexivity|].
  destruct ev; simpl; rewrite IH; reflexivity.
Qed.

Lemma searchesOf_app (l1 l2 : list Event) :
  searchesOf (l1 ++ l2) = (searchesOf l1 ++ searchesOf l2)%list.
Proof.
  induction l1 as [|ev l1 IH]; [reflexivity|].
  destruct ev; simpl; rewrite IH; reflexivity.
Qed.

(** ** The retry executor *)

Lemma retryDecision_shouldRetry (d : Q) (e : Exn) :
  (retryDecision d e).1 = retryable e.
Proof.
  destruct e as [m|]; simpl; [|reflexivity].
  destruct (statusCodeOf m =? 503)%Z; [reflexivity|].
  destruct (statusCodeOf m =? 429)%Z; [|reflexivity].
  destruct (Js.firstMatch Js.retryInAt m); reflexivity.
Qed.

Section RetryExecutor.

Variable w : World.
Variable sys : string.
Variable cs : list Content.

Lemma retryLoop_returns (fuel attempt : nat) (d : Q) (s : Effects) (r : Response) :
  generateContent w (generated s) sys cs = Returned r ->
  retryLoop w sys cs (S fuel) attempt d s = (Returned (Some r), afterCall s cs).
Proof.
  intros H. cbn [retryLoop]. unfold tryCatch, bind, callModel, ret.
  rewrite H. reflexivity.
Qed.

Lemma retryLoop_throws (fuel attempt : nat) (d : Q) (s : Effects) (e : Exn) :
  generateContent w (generated s) sys cs = Threw e ->
  retryable e && (attempt <? maxRetries - 1)%nat = false ->
  retryLoop w sys cs (S fuel) attempt d s = (Threw e, afterCall s cs).
Proof.
  intros H Hno. cbn [retryLoop]. unfold tryCatch, bind, callModel.
  rewrite H. pose proof (retryDecision_shouldRetry d e) as Hd.
  destruct (retryDecision d e) as [b ms]. simpl in Hd. subst b.
  rewrite Hno. reflexivity.
Qed.

Lemma retryLoop_retries (fuel attempt : nat) (d : Q) (s : Effects) (e : Exn) :
  generateContent w (generated s) sys cs = Threw e ->
  retryable e = true ->
  (attempt < maxRetries - 1)%nat ->
  retryLoop w sys cs (S fuel) attempt d s
  = retryLoop w sys cs fuel (S attempt) (nextDelay d e)
      (afterDelay (afterCall s cs) (retryDecision d e).2).
Proof.
  intros H Hr Hlt. cbn [retryLoop]. unfold tryCatch, bind, callModel.
  rewrite H. pose proof (retryDecision_shouldRetry d e) as Hd.
  destruct (retryDecision d e) as [b ms]. simpl in Hd. subst b.
  rewrite Hr. apply Nat.ltb_lt in Hlt. rewrite Hlt. reflexivity.
Qed.

(** An attempt goes one of three ways: the call returns, the error is
    thrown, or the error is waited out and the loop goes on. *)
Lemma retryLoop_attempt (fuel attempt : nat) (d : Q) (s : Effects) :
  (exists r : Response,
     generateContent w (generated s) sys cs = Returned r
     /\ retryLoop w sys cs (S fuel) attempt d s
        = (Returned (Some r), afterCall s cs))
  \/ (exists e : Exn,
        generateContent w (generated s) sys cs = Threw e
        /\ retryLoop w sys cs (S fuel) attempt d s = (Threw e, afterCall s cs))
  \/ (exists e : Exn,
        generateContent w (generated s) sys cs = Threw e
        /\ retryLoop w sys cs (S fuel) attempt d s
           = retryLoop w sys cs fuel (S attempt) (nextDelay d e)
               (afterDelay (afterCall s cs) (retryDecision d e).2)).
Proof.
  destruct (generateContent w (generated s) sys cs) as [r|e] eqn:H.
  - left. exists r. split; [reflexivity|]. apply retryLoop_returns. exact H.
  - right. destruct (retryable e && (attempt <? maxRetries - 1)%nat) eqn:Hb.
    + right. exists e. split; [reflexivity|].
      apply andb_true_iff in Hb as [Hr Hlt]. apply Nat.ltb_lt in Hlt.
      apply retryLoop_retries; assumption.
    + left. exists e. split; [reflexivity|].
      apply retryLoop_throws; assumption.
Qed.

(** The executor never makes more calls than it has passes left. *)
Lemma retryLoop_calls_bound (fuel attempt : nat) (d : Q) (s : Effects) :
  (generated s < generated (retryLoop w sys cs (S fuel) attempt d s).2
   <= generated s + S fuel)%nat.
Proof.
  revert attempt d s. induction fuel as [|fuel IH]; intros attempt d s.
  - destruct (retryLoop_attempt 0 attempt d s)
      as [(r & _ & ->)|[(e & _ & ->)|(e & _ & ->)]]; simpl; lia.
  - destruct (retryLoop_attempt (S fuel) attempt d s)
      as [(r & _ & ->)|[(e & _ & ->)|(e & _ & ->)]]; try (simpl; lia).
    specialize (IH (S attempt) (nextDelay d e)
                   (afterDelay (afterCall s cs) (retryDecision d e).2)).
    cbn [afterDelay afterCall generated] in IH. lia.
Qed.

(** An error leaving the executor is the one thrown by its last call, and
    that call is the last thing the executor did. *)
Lemma retryLoop_throws_last (fuel attempt : nat) (d : Q) (s s' : Effects) (e : Exn) :
  retryLoop w sys cs fuel attempt d s = (Threw e, s') ->
  exists n : nat,
    generated s' = S n
    /\ generateContent w n sys cs = Threw e
    /\ last (log s') = Some (Generate n cs).
Proof.
  revert attempt d s. induction fuel as [|fuel IH]; intros attempt d s Hrun.
  - discriminate Hrun.
  - destruct (retryLoop_attempt fuel attempt d s)
      as [(r & _ & Hstep)|[(e0 & H & Hstep)|(e0 & _ & Hstep)]];
      rewrite Hstep in Hrun.
    + discriminate Hrun.
    + injection Hrun as <- <-. exists (generated s). simpl.
      split; [reflexivity|]. split; [exact H|]. apply last_snoc.
    + exact (IH _ _ _ Hrun).
Qed.

(** The retry executor does not search. *)
Lemma retryLoop_searched (fuel attempt : nat) (d : Q) (s : Effects) :
  searched (retryLoop w sys cs fuel attempt d s).2 = searched s
  /\ searchesOf (log (retryLoop w sys cs fuel attempt d s).2)
     = searchesOf (log s).
Proof.
  revert attempt d s. induction fuel as [|fuel IH]; intros attempt d s.
  - split; reflexivity.
  - destruct (retryLoop_attempt fuel attempt d s)
      as [(r & _ & ->)|[(e & _ & ->)|(e & _ & ->)]].
    + simpl. rewrite searchesOf_app, app_nil_r. split; reflexivity.
    + simpl. rewrite searchesOf_app, app_nil_r. split; reflexivity.
    + destruct (IH (S attempt) (nextDelay d e)
                   (afterDelay (afterCall s cs) (retryDecision d e).2))
        as [-> ->].
      simpl. rewrite !searchesOf_app, !app_nil_r. split; reflexivity.
Qed.

(** The log only grows, and a pass of the retry executor begins with a call
    of the model on the contents it was given. *)
Lemma retryLoop_log_grows (fuel attempt : nat) (d : Q) (s : Effects) :
  exists l : list Event,
    log (retryLoop w sys cs fuel attempt d s).2 = (log s ++ l)%list.
Proof.
  revert attempt d s. induction fuel as [|fuel IH]; intros attempt d s.
  - exists []. simpl. rewrite app_nil_r. reflexivity.
  - destruct (retryLoop_attempt fuel attempt d s)
      as [(r & _ & ->)|[(e & _ & ->)|(e & _ & ->)]];
      try (eexists; reflexivity).
    destruct (IH (S attempt) (nextDelay d e)
                 (afterDelay (afterCall s cs) (retryDecision d e).2))
      as [l ->].
    simpl. rewrite <- !app_assoc. eexists. reflexivity.
Qed.

Lemma retryLoop_log_begins (fuel attempt : nat) (d : Q) (s : Effects) :
  exists l : list Event,
    log (retryLoop w sys cs (S fuel) attempt d s).2
    = (log s ++ Generate (generated s) cs :: l)%list.
Proof.
  destruct (retryLoop_attempt fuel attempt d s)
    as [(r & _ & ->)|[(e & _ & ->)|(e & _ & ->)]];
    try (exists []; reflexivity).
  destruct (retryLoop_log_grows fuel (S attempt) (nextDelay d e)
              (afterDelay (afterCall s cs) (retryDecision d e).2))
    as [l ->].
  simpl. rewrite <- !app_assoc. eexists. reflexivity.
Qed.

End RetryExecutor.

(** When every call left in the budget fails, the errors before the last one
    being retryable, the executor uses the whole budget, waits between the
    attempts and throws the error of the last attempt. *)
Lemma retryLoop_exhausted (w : World) (sys : string) (cs : list Content)
    (fuel attempt : nat) (d : Q) (s : Effects) (e : Exn) :
  (attempt + S fuel = maxRetries)%nat ->
  (forall k : nat, (k < fuel)%nat ->
     exists ek : Exn,
       generateContent w (generated s + k) sys cs = Threw ek
       /\ retryable ek = true) ->
  generateContent w (generated s + fuel) sys cs = Threw e ->
  exists s' : Effects,
    retryLoop w sys cs (S fuel) attempt d s = (Threw e, s')
    /\ generated s' = (generated s + S fuel)%nat
    /\ length (delaysOf (log s')) = (length (delaysOf (log s)) + fuel)%nat.
Proof.
  revert attempt d s.
  induction fuel as [|fuel IH]; intros attempt d s Hbudget Hfail Hlast.
  - rewrite Nat.add_0_r in Hlast.
    assert ((attempt <? maxRetries - 1)%nat = false) as Hlt
      by (apply Nat.ltb_ge; unfold maxRetries in *; lia).
    exists (afterCall s cs).
    rewrite (retryLoop_throws w sys cs 0 attempt d s e Hlast)
      by (rewrite Hlt; apply andb_false_r).
    simpl. rewrite delaysOf_app. simpl. rewrite length_app. simpl.
    repeat split; lia.
  - destruct (Hfail 0%nat) as (e0 & H0 & Hr0); [lia|].
    rewrite Nat.add_0_r in H0.
    assert (attempt < maxRetries - 1)%nat as Hlt
      by (unfold maxRetries in *; lia).
    rewrite (retryLoop_retries w sys cs (S fuel) attempt d s e0 H0 Hr0 Hlt).
    set (s1 := afterDelay (afterCall s cs) (retryDecision d e0).2).
    assert (generated s1 = S (generated s)) as Hg by reflexivity.
    destruct (IH (S attempt) (nextDelay d e0) s1) as (s' & Hrun & Hgen & Hdel).
    + lia.
    + intros k Hk. destruct (Hfail (S k)) as (ek & Hk1 & Hk2); [lia|].
      exists ek. split; [|exact Hk2].
      rewrite Hg. rewrite <- Hk1. f_equal. lia.
    + rewrite Hg. rewrite <- Hlast. f_equal. lia.
    + exists s'. split; [exact Hrun|]. split; [lia|].
      rewrite Hdel. unfold s1. simpl.
      rewrite !delaysOf_app. simpl. rewrite !length_app. simpl. lia.
Qed.

(** C7. An upstream failure that is not classified as 503 or 429 leaves the
    retry executor at once: the failed call is the last effect, no delay and
    no further attempt follow, whatever the attempt number and the current
    backoff.  The executor never makes more than five attempts; an error it
    throws is the error of its last attempt; and when the first four attempts
    fail with retryable errors and the fifth fails too, the fifth error is
    thrown after exactly five attempts and four waits. *)
Theorem C7_non_retryable_propagates_and_budget_is_five
    (w : World) (sys : string) (cs : list Content) (s : Effects) :
  (forall (fuel attempt : nat) (d : Q) (e : Exn),
     generateContent w (generated s) sys cs = Threw e ->
     retryable e = false ->
     retryLoop w sys cs (S fuel) attempt d s = (Threw e, afterCall s cs))
  /\ (generated (generateWithRetry w sys cs s).2 <= generated s + 5)%nat
  /\ (forall (e : Exn) (s' : Effects),
        generateWithRetry w sys cs s = (Threw e, s') ->
        exists n : nat,
          generated s' = S n
          /\ generateContent w n sys cs = Threw e
          /\ last (log s') = Some (Generate n cs))
  /\ (forall e : Exn,
        (forall k : nat, (k < 4)%nat ->
           exists ek : Exn,
             generateContent w (generated s + k) sys cs = Threw ek
             /\ retryable ek = true) ->
        generateContent w (generated s + 4) sys cs = Threw e ->
        exists s' : Effects,
          generateWithRetry w sys cs s = (Threw e, s')
          /\ generated s' = (generated s + 5)%nat
          /\ length (delaysOf (log s')) = (length (delaysOf (log s)) + 4)%nat).
Proof.
  split; [|split; [|split]].
  - intros fuel attempt d e H Hno.
    apply retryLoop_throws; [exact H|]. rewrite Hno. reflexivity.
  - unfold generateWithRetry, maxRetries.
    pose proof (retryLoop_calls_bound w sys cs 4 0 baseDelay s). lia.
  - intros e s' Hrun. exact (retryLoop_throws_last w sys cs _ _ _ _ _ _ Hrun).
  - intros e Hfail Hlast. unfold generateWithRetry.
    apply (retryLoop_exhausted w sys cs 4 0 baseDelay s e);
      [reflexivity|exact Hfail|exact Hlast].
Qed.

Lemma C7_witness :
  retryLoop (alwaysFailing badRequest) "sys" [] 5 0 baseDelay noEffects
  = (Threw badRequest, afterCall noEffects [])
  /\ exists s' : Effects,
       generateWithRetry (alwaysFailing overloaded) "sys" [] noEffects
       = (Threw overloaded, s')
       /\ generated s' = 5%nat
       /\ length (delaysOf (log s')) = 4%nat.
Proof.
  split.
  - apply (proj1 (C7_non_retryable_propagates_and_budget_is_five
                    (alwaysFailing badRequest) "sys" [] noEffects));
      reflexivity.
  - apply (proj2 (proj2 (proj2
             (C7_non_retryable_propagates_and_budget_is_five
                (alwaysFailing overloaded) "sys" [] noEffects)))).
    + intros k _. exists overloaded. split; reflexivity.
    + reflexivity.
Defined.

(** ** The search tool and one pass of the tool loop *)

(** The search tool never throws: whatever the search API does, it returns a
    result for the query it was given, after exactly one search. *)
Lemma googleSearch_returns (w : World) (q : option string) (s : Effects) :
  exists tr : ToolResult,
    googleSearch w q s = (Returned tr, afterSearch s q) /\ tr_query tr = q.
Proof.
  unfold googleSearch, tryCatch, bind, callSearch, ret.
  destruct (cseList w (searched s) q) as [items|e].
  - destruct (length (formatSearchResults (default [] items)) =? 0)%nat;
      eexists; split; reflexivity.
  - eexists; split; reflexivity.
Qed.

Section Round.

Variable w : World.
Variable sys : string.

(** An error thrown by the retry executor leaves the pass unchanged. *)
Lemma round_failed (i : nat) (v : LoopVars) (s s1 : Effects) (e : Exn) :
  stalled i v = false ->
  generateWithRetry w sys (contents v) s = (Threw e, s1) ->
  round w sys i v s = (Threw e, s1).
Proof.
  intros Hgo Hgen. unfold round. rewrite Hgo. unfold bind. rewrite Hgen.
  reflexivity.
Qed.

(** A response without function call ends the loop with that response. *)
Lemma round_converged (i : nat) (v : LoopVars) (s s1 : Effects)
    (response : option Response) :
  stalled i v = false ->
  generateWithRetry w sys (contents v) s = (Returned response, s1) ->
  firstCall response = None ->
  round w sys i v s
  = (Returned (Break {| contents := contents v;
                        contentsLength := seenLength v;
                        fullResponse := response |}), s1).
Proof.
  intros Hgo Hgen Hcall. unfold round. rewrite Hgo. unfold bind. rewrite Hgen.
  rewrite Hcall. reflexivity.
Qed.

(** A call of a function other than the search tool is thrown as an error
    right after the model's answer. *)
Lemma round_unknown (i : nat) (v : LoopVars) (s s1 : Effects)
    (response : option Response) (call : FunctionCall) :
  stalled i v = false ->
  generateWithRetry w sys (contents v) s = (Returned response, s1) ->
  firstCall response = Some call ->
  isGoogleSearch (name call) = false ->
  round w sys i v s = (Threw (unknownFunction (name call)), s1).
Proof.
  intros Hgo Hgen Hcall Hname. unfold round. rewrite Hgo. unfold bind.
  rewrite Hgen, Hcall, Hname. reflexivity.
Qed.

(** A call of the search tool, with its arguments and the candidate content
    present: one search, two turns pushed, next pass. *)
Lemma round_dispatch (i : nat) (v : LoopVars) (s s1 : Effects)
    (response : option Response) (call : FunctionCall) (a : Args)
    (c : Content) :
  stalled i v = false ->
  generateWithRetry w sys (contents v) s = (Returned response, s1) ->
  firstCall response = Some call ->
  isGoogleSearch (name call) = true ->
  args call = Some a ->
  firstCandidateContent response = Some c ->
  exists tr : ToolResult,
    googleSearch w (query a) s1 = (Returned tr, afterSearch s1 (query a))
    /\ round w sys i v s
       = (Returned (Next {| contents :=
                              (contents v ++ [c; functionTurn tr])%list;
                            contentsLength := seenLength v;
                            fullResponse := response |}),
          afterSearch s1 (query a)).
Proof.
  intros Hgo Hgen Hcall Hname Hargs Hcontent.
  destruct (googleSearch_returns w (query a) s1) as (tr & Htool & _).
  exists tr. split; [exact Htool|].
  unfold round. rewrite Hgo. unfold bind.
  rewrite Hgen, Hcall, Hname, Hargs. rewrite Htool, Hcontent. reflexivity.
Qed.

(** The loop leaves through a [break] or a throw of its first pass. *)
Lemma toolLoop_break (fuel i : nat) (v v' : LoopVars) (s s' : Effects) :
  round w sys i v s = (Returned (Break v'), s') ->
  toolLoop w sys (S fuel) i v s = (Returned v', s').
Proof.
  intros H. cbn [toolLoop]. unfold bind. rewrite H. reflexivity.
Qed.

Lemma toolLoop_throw (fuel i : nat) (v : LoopVars) (s s' : Effects) (e : Exn) :
  round w sys i v s = (Threw e, s') ->
  toolLoop w sys (S fuel) i v s = (Threw e, s').
Proof.
  intros H. cbn [toolLoop]. unfold bind. rewrite H. reflexivity.
Qed.

Lemma toolLoop_next (fuel i : nat) (v v' : LoopVars) (s s' : Effects) :
  round w sys i v s = (Returned (Next v'), s') ->
  toolLoop w sys (S fuel) i v s = toolLoop w sys fuel (S i) v' s'.
Proof.
  intros H. cbn [toolLoop]. unfold bind. rewrite H. reflexivity.
Qed.

End Round.

(** ** The handler around the loop *)

(** With a key configured and a history free of undefined entries, the
    handler is its [try] block and its [catch] clause. *)
Lemma POST_with_key (w : World) (g : Global) (req : Request)
    (cs : list Content) :
  apiKeyMissing w = false ->
  toContents (pushedHistory g req) = Some cs ->
  POST w g req
  = match orchestrate w (generateSystemPrompt w) cs noEffects with
    | (Returned v, eff) =>
        (Responded 200 (MessageBody (replyOf (fullResponse v))),
         Some (<[sessionId req :=
                   (pushedHistory g req
                      ++ [Some {| role := assistant;
                                  content := replyOf (fullResponse v) |}])%list]>
                 (<[sessionId req := pushedHistory g req]> (default ∅ g))),
         eff)
    | (Threw error, eff) =>
        (errorResponse error,
         Some (<[sessionId req := pushedHistory g req]> (default ∅ g)),
         eff)
    end.
Proof.
  intros Hkey Hcs. unfold POST. fold (pushedHistory g req). rewrite Hkey, Hcs.
  destruct (orchestrate w (generateSystemPrompt w) cs noEffects) as [[v|e] eff];
    reflexivity.
Qed.

(** The loop guard lets the first pass through. *)
Lemma stalled_first (cs : list Content) :
  stalled 0 {| contents := cs; contentsLength := length cs;
               fullResponse := None |} = false.
Proof. unfold stalled. simpl. apply andb_false_r. Qed.

(** ** Credential failures *)

(** C1, as stated, fails when the credential is missing: the handler answers
    500, not 401. *)
Lemma C1_missing_key_is_answered_500 :
  apiKeyMissing noKeyWorld = true
  /\ outcomeOf (POST noKeyWorld None hello) = Responded 500 keyNotConfigured
  /\ ~ (exists body : Body,
          outcomeOf (POST noKeyWorld None hello) = Responded 401 body).
Proof.
  split; [reflexivity|]. split; [reflexivity|].
  intros [body H]. vm_compute in H. discriminate H.
Qed.

(** C1, amended.  A request served without a configured key is answered 500
    before the session store or the model is touched.  An upstream error
    whose message contains API_KEY and whose status code is neither 503 nor
    429 is mapped to 401; the retry executor throws it at once, whatever the
    attempt number and backoff; the tool loop passes it on with the failed
    call as its last effect; and when it answers the first call of a request,
    the response is 401 after that single call. *)
Theorem C1_missing_key_500_invalid_key_401_unretried
    (w : World) (g : Global) (req : Request) :
  (apiKeyMissing w = true ->
   POST w g req = (Responded 500 keyNotConfigured, g, noEffects))
  /\ (forall m : string,
        Js.includes m "API_KEY" = true ->
        retryable (ErrorObj m) = false ->
        errorResponse (ErrorObj m) = Responded 401 credentialProblem
        /\ (forall (sys : string) (cs : list Content) (fuel attempt : nat)
                   (d : Q) (s : Effects),
              generateContent w (generated s) sys cs = Threw (ErrorObj m) ->
              retryLoop w sys cs (S fuel) attempt d s
              = (Threw (ErrorObj m), afterCall s cs))
        /\ (forall (sys : string) (fuel i : nat) (v : LoopVars) (s : Effects),
              stalled i v = false ->
              generateContent w (generated s) sys (contents v)
              = Threw (ErrorObj m) ->
              toolLoop w sys (S fuel) i v s
              = (Threw (ErrorObj m), afterCall s (contents v)))
        /\ (forall cs : list Content,
              apiKeyMissing w = false ->
              toContents (pushedHistory g req) = Some cs ->
              generateContent w 0 (generateSystemPrompt w) cs
              = Threw (ErrorObj m) ->
              outcomeOf (POST w g req) = Responded 401 credentialProblem
              /\ effectsOf (POST w g req) = afterCall noEffects cs)).
Proof.
  split.
  - intros Hkey. unfold POST. rewrite Hkey. reflexivity.
  - intros m Hinc Hno.
    assert (forall (sys : string) (cs : list Content) (fuel attempt : nat)
                   (d : Q) (s : Effects),
              generateContent w (generated s) sys cs = Threw (ErrorObj m) ->
              retryLoop w sys cs (S fuel) attempt d s
              = (Threw (ErrorObj m), afterCall s cs)) as Hexec.
    { intros sys cs fuel attempt d s H.
      apply retryLoop_throws; [exact H|]. rewrite Hno. reflexivity. }
    assert (forall (sys : string) (fuel i : nat) (v : LoopVars) (s : Effects),
              stalled i v = false ->
              generateContent w (generated s) sys (contents v)
              = Threw (ErrorObj m) ->
              toolLoop w sys (S fuel) i v s
              = (Threw (ErrorObj m), afterCall s (contents v))) as Hloop.
    { intros sys fuel i v s Hgo H.
      apply toolLoop_throw. apply round_failed; [exact Hgo|].
      unfold generateWithRetry, maxRetries. apply Hexec. exact H. }
    split; [|split; [exact Hexec|split; [exact Hloop|]]].
    + simpl in Hno. apply orb_false_iff in Hno as [H503 H429].
      unfold errorResponse. rewrite H503, H429, Hinc. reflexivity.
    + intros cs Hkey Hcs Hfirst.
      rewrite (POST_with_key w g req cs Hkey Hcs).
      unfold orchestrate, maxToolCalls.
      rewrite (Hloop _ 4%nat 0%nat _ noEffects (stalled_first cs) Hfirst).
      unfold outcomeOf, effectsOf. simpl fst. simpl snd.
      split; [|reflexivity].
      simpl in Hno. apply orb_false_iff in Hno as [H503 H429].
      unfold errorResponse. rewrite H503, H429, Hinc. reflexivity.
Qed.

Lemma C1_witness :
  POST noKeyWorld None hello = (Responded 500 keyNotConfigured, None, noEffects)
  /\ outcomeOf (POST badKeyWorld None hello) = Responded 401 credentialProblem
  /\ effectsOf (POST badKeyWorld None hello)
     = afterCall noEffects [toContent {| role := user; content := "hello" |}].
Proof.
  split.
  - apply (proj1 (C1_missing_key_500_invalid_key_401_unretried
                    noKeyWorld None hello)). reflexivity.
  - refine (proj2 (proj2 (proj2
              (proj2 (C1_missing_key_500_invalid_key_401_unretried
                        badKeyWorld None hello)
                     invalidKeyMessage _ _)))
              _ _ _ _); reflexivity.
Defined.

(** ** Status codes in messages *)

Module JsFacts.

Import Js.

Lemma stripPrefix_app (p q s : string) :
  stripPrefix (p +:+ q) s
  = match stripPrefix p s with
    | Some r => stripPrefix q r
    | None => None
    end.
Proof.
  revert s. induction p as [|a p IH]; intros s; [reflexivity|].
  destruct s as [|b s]; [reflexivity|]. simpl.
  destruct (Ascii.eqb a b); [apply IH|reflexivity].
Qed.

(** The digits captured by [\d*] are a prefix of the string scanned. *)
Lemma spanDigits_prefix (s d r : string) :
  spanDigits s = (d, r) -> stripPrefix d s = Some r.
Proof.
  revert d r. induction s as [|c s IH]; intros d r H; simpl in H.
  - injection H as <- <-. reflexivity.
  - destruct (isDigit c).
    + destruct (spanDigits s) as [d' r']. injection H as <- <-.
      simpl. rewrite Ascii.eqb_refl. apply IH. reflexivity.
    + injection H as <- <-. reflexivity.
Qed.

(** A match at the start of the string is the first match. *)
Lemma firstMatch_here {A : Type} (f : string -> option A) (s : string) (x : A) :
  f s = Some x -> firstMatch f s = Some x.
Proof. intros H. destruct s; simpl; rewrite H; reflexivity. Qed.

(** A match further on is found unless an earlier one is. *)
Lemma firstMatch_later {A : Type} (f : string -> option A) (c : ascii)
    (s : string) :
  is_Some (firstMatch f s) -> is_Some (firstMatch f (String c s)).
Proof.
  intros H. cbn [firstMatch]. destruct (f (String c s)); [eauto|exact H].
Qed.

(** Where the status-code regex captures [d], the text of the key followed
    by [d] is present. *)
Lemma codeAt_text (s d : string) :
  codeAt s = Some d -> is_Some (stripPrefix (codeKey +:+ d) s).
Proof.
  unfold codeAt. rewrite stripPrefix_app.
  destruct (stripPrefix codeKey s) as [rest|]; [|discriminate].
  destruct (spanDigits rest) as [d' r] eqn:Hspan.
  destruct d' as [|c d']; [discriminate|]. intros H. injection H as <-.
  rewrite (spanDigits_prefix _ _ _ Hspan). eauto.
Qed.

Lemma codeAt_includes (m d : string) :
  firstMatch codeAt m = Some d -> includes m (codeKey +:+ d) = true.
Proof.
  intros H.
  assert (is_Some (firstMatch (stripPrefix (codeKey +:+ d)) m)) as [x Hx].
  { induction m as [|c m IH].
    - discriminate H.
    - cbn [firstMatch] in H. destruct (codeAt (String c m)) eqn:Hc.
      + injection H as ->. destruct (codeAt_text _ _ Hc) as [x Hx].
        exists x. apply firstMatch_here. exact Hx.
      + apply firstMatch_later. apply IH. exact H. }
  unfold includes. rewrite Hx. reflexivity.
Qed.

End JsFacts.

(** A message whose first status code is written 503 is classified 503 and
    contains the text searched at line 189. *)
Lemma written_503 (m : string) :
  Js.firstMatch Js.codeAt m = Some "503" ->
  statusCodeOf m = 503%Z /\ mentions503 m = true.
Proof.
  intros H. split.
  - unfold statusCodeOf. rewrite H. reflexivity.
  - unfold mentions503. apply JsFacts.codeAt_includes. exact H.
Qed.

(** ** Backoff *)

(** A 503 is retried after the current backoff. *)
Lemma retryDecision_overloaded (d : Q) (m : string) :
  statusCodeOf m = 503%Z -> retryDecision d (ErrorObj m) = (true, d).
Proof. intros H. unfold retryDecision. rewrite H. reflexivity. Qed.

(** A 429 whose message advises a wait is retried after the advised seconds
    times 1000 plus 500 milliseconds. *)
Lemma retryDecision_rate_limited_advised (d : Q) (m a : string) :
  statusCodeOf m = 429%Z ->
  Js.firstMatch Js.retryInAt m = Some a ->
  retryDecision d (ErrorObj m) = (true, (Js.parseFloat a * 1000 + 500)%Q).
Proof. intros H Ha. unfold retryDecision. rewrite H, Ha. reflexivity. Qed.

(** A 429 without advice is retried after the current backoff. *)
Lemma retryDecision_rate_limited_unadvised (d : Q) (m : string) :
  statusCodeOf m = 429%Z ->
  Js.firstMatch Js.retryInAt m = None ->
  retryDecision d (ErrorObj m) = (true, d).
Proof. intros H Ha. unfold retryDecision. rewrite H, Ha. reflexivity. Qed.

(** The advice of 2.5 seconds gives a wait of 3000 milliseconds. *)
Lemma retryDecision_advice_2_5 (d : Q) :
  exists ms : Q,
    retryDecision d (rateLimited "Please retry in 2.5s.") = (true, ms)
    /\ (ms == 3000)%Q.
Proof. eexists. split; [reflexivity|]. vm_compute. reflexivity. Qed.

(** The backoff is doubled exactly when the message contains the text
    searched at line 189. *)
Lemma nextDelay_mentioning (d : Q) (m : string) :
  nextDelay d (ErrorObj m) = if mentions503 m then (d * 2)%Q else d.
Proof. reflexivity. Qed.

(** Two failures whose first status code is written 503, then an answer:
    three attempts, a wait of the base delay and a wait of twice the base
    delay. *)
Lemma overloaded_twice_then_answer (w : World) (sys : string)
    (cs : list Content) (s : Effects) (m1 m2 : string) (r : Response) :
  generateContent w (generated s) sys cs = Threw (ErrorObj m1) ->
  Js.firstMatch Js.codeAt m1 = Some "503" ->
  generateContent w (S (generated s)) sys cs = Threw (ErrorObj m2) ->
  Js.firstMatch Js.codeAt m2 = Some "503" ->
  generateContent w (S (S (generated s))) sys cs = Returned r ->
  generateWithRetry w sys cs s
  = (Returned (Some r),
     afterCall
       (afterDelay
          (afterCall (afterDelay (afterCall s cs) baseDelay) cs)
          (baseDelay * 2)%Q)
       cs).
Proof.
  intros H1 Hw1 H2 Hw2 H3. unfold generateWithRetry, maxRetries.
  destruct (written_503 m1 Hw1) as [Hc1 Hm1].
  destruct (written_503 m2 Hw2) as [Hc2 Hm2].
  rewrite (retryLoop_retries w sys cs 4 0 baseDelay s (ErrorObj m1) H1);
    [|simpl; rewrite Hc1; reflexivity|unfold maxRetries; lia].
  rewrite (retryDecision_overloaded _ _ Hc1), nextDelay_mentioning, Hm1.
  cbn [snd].
  rewrite (retryLoop_retries w sys cs 3 1 (baseDelay * 2)%Q
             (afterDelay (afterCall s cs) baseDelay) (ErrorObj m2) H2);
    [|simpl; rewrite Hc2; reflexivity|unfold maxRetries; lia].
  rewrite (retryDecision_overloaded _ _ Hc2), nextDelay_mentioning, Hm2.
  cbn [snd].
  apply retryLoop_returns. exact H3.
Qed.

(** The scenario of C2 on the usual 503 message: three attempts, waits of
    2000 and 4000 milliseconds. *)
Example overloaded_twice_run :
  let run := generateWithRetry (failsTwice overloaded) "sys" [] noEffects in
  run.1 = Returned (Some (textResponse "ok"))
  /\ generated run.2 = 3%nat
  /\ delaysOf (log run.2) = [2000%Q; 4000%Q].
Proof. vm_compute. repeat split. Qed.

(** C2 at two inputs where the doubling and the classification part ways.
    A failure whose status code is written 0503 is classified 503 and
    retried, but the backoff stays at 2000: the second wait is not the
    double of the first.  A failure classified 429 whose message quotes a 503
    is retried on the 429 path, and the backoff is doubled all the same. *)
Theorem C2_doubling_tests_the_text_not_the_status :
  let padded := generateWithRetry (failsTwice overloadedZeroPadded)
                                  "sys" [] noEffects in
  let quoting := generateWithRetry (failsTwice rateLimitedQuoting503)
                                   "sys" [] noEffects in
  statusCodeOf zeroPaddedMessage = 503%Z
  /\ padded.1 = Returned (Some (textResponse "ok"))
  /\ generated padded.2 = 3%nat
  /\ delaysOf (log padded.2) = [2000%Q; 2000%Q]
  /\ statusCodeOf quoting503Message = 429%Z
  /\ quoting.1 = Returned (Some (textResponse "ok"))
  /\ delaysOf (log quoting.2) = [2000%Q; 4000%Q].
Proof. vm_compute. repeat split. Qed.

(** C3 at a 429 whose message quotes a 503 and advises no wait: the failure
    is classified 429, the wait is the current backoff of 2000, and the
    backoff is then doubled, so that the next such failure waits 4000. *)
Theorem C3_backoff_doubled_on_a_429_quoting_503 :
  let run := generateWithRetry (failsTwice rateLimitedQuoting503)
                               "sys" [] noEffects in
  statusCodeOf quoting503Message = 429%Z
  /\ retryDecision baseDelay rateLimitedQuoting503 = (true, 2000%Q)
  /\ nextDelay baseDelay rateLimitedQuoting503 = (baseDelay * 2)%Q
  /\ generated run.2 = 3%nat
  /\ delaysOf (log run.2) = [2000%Q; 4000%Q].
Proof. vm_compute. repeat split. Qed.

(** ** The tool loop *)

(** C5, as stated, fails for an answer that has no text: the caller gets the
    fixed apology, which is not a text of the model. *)
Lemma C5_answer_without_text_gets_the_apology :
  functionCalls emptyResponse = []
  /\ r_text emptyResponse = None
  /\ generateContent silentWorld 0 (generateSystemPrompt silentWorld)
                     helloContents
     = Returned emptyResponse
  /\ outcomeOf (POST silentWorld None hello)
     = Responded 200 (MessageBody fallbackReply)
  /\ r_text emptyResponse <> Some fallbackReply.
Proof. repeat split; try reflexivity. discriminate. Qed.

(** C5, amended.  When the model's answer to a request, obtained by the retry
    executor, carries no function call, the handler answers 200 with the
    text of that answer when it has one and with the fixed apology when it
    has none, and performs nothing beyond the effects of that one upstream
    call: no tool is run and no second round is made.  When the first attempt
    succeeds, the only effect is that attempt. *)
Theorem C5_no_tool_call_ends_after_one_round
    (w : World) (g : Global) (req : Request) (cs : list Content)
    (r : Response) (eff : Effects) :
  apiKeyMissing w = false ->
  toContents (pushedHistory g req) = Some cs ->
  generateWithRetry w (generateSystemPrompt w) cs noEffects
  = (Returned (Some r), eff) ->
  functionCalls r = [] ->
  outcomeOf (POST w g req) = Responded 200 (MessageBody (replyOf (Some r)))
  /\ (forall t : string,
        r_text r = Some t ->
        outcomeOf (POST w g req) = Responded 200 (MessageBody t))
  /\ (r_text r = None ->
      outcomeOf (POST w g req) = Responded 200 (MessageBody fallbackReply))
  /\ effectsOf (POST w g req) = eff
  /\ searched eff = 0%nat
  /\ searchesOf (log eff) = []
  /\ (generateContent w 0 (generateSystemPrompt w) cs = Returned r ->
      effectsOf (POST w g req) = afterCall noEffects cs).
Proof.
  intros Hkey Hcs Hgen Hnone.
  assert (POST w g req
          = (Responded 200 (MessageBody (replyOf (Some r))),
             globalOf (POST w g req), eff)) as Hrun.
  { unfold globalOf. rewrite (POST_with_key w g req cs Hkey Hcs).
    unfold orchestrate, maxToolCalls.
    rewrite (toolLoop_break w _ 4 0 _ _ noEffects eff
               (round_converged w _ 0 _ noEffects eff (Some r)
                  (stalled_first cs) Hgen
                  ltac:(simpl; rewrite Hnone; reflexivity))).
    reflexivity. }
  pose proof (retryLoop_searched w (generateSystemPrompt w) cs maxRetries 0
                baseDelay noEffects) as [Hs1 Hs2].
  fold (generateWithRetry w (generateSystemPrompt w) cs) in Hs1, Hs2.
  rewrite Hgen in Hs1, Hs2. simpl in Hs1, Hs2.
  rewrite Hrun. unfold outcomeOf, effectsOf. simpl.
  split; [reflexivity|]. split.
  { intros t Ht. rewrite Ht. reflexivity. }
  split.
  { intros Hnot. rewrite Hnot. reflexivity. }
  split; [reflexivity|]. split; [exact Hs1|]. split; [exact Hs2|].
  intros Hfirst. unfold generateWithRetry, maxRetries in Hgen.
  rewrite (retryLoop_returns w _ cs 4 0 baseDelay noEffects r Hfirst) in Hgen.
  injection Hgen as <-. reflexivity.
Qed.

Lemma C5_witness :
  outcomeOf (POST answeringWorld None hello) = Responded 200 (MessageBody "hi")
  /\ effectsOf (POST answeringWorld None hello)
     = afterCall noEffects helloContents.
Proof.
  pose proof (C5_no_tool_call_ends_after_one_round
                answeringWorld None hello helloContents (textResponse "hi")
                (afterCall noEffects helloContents)
                eq_refl eq_refl eq_refl eq_refl)
    as (_ & Htext & _ & _ & _ & _ & H1).
  split; [apply Htext; reflexivity|apply H1; reflexivity].
Defined.

(** The outer [catch] always answers with an error body and a status other
    than 200. *)
Lemma errorResponse_is_failure (e : Exn) :
  exists (status : Z) (msg : string),
    errorResponse e = Responded status (ErrorBody msg) /\ status <> 200%Z.
Proof.
  destruct e as [m|]; unfold errorResponse.
  - destruct (statusCodeOf m =? 503)%Z; [eexists _, _; split; [reflexivity|lia]|].
    destruct (statusCodeOf m =? 429)%Z; [eexists _, _; split; [reflexivity|lia]|].
    destruct (Js.includes m "API_KEY"); [eexists _, _; split; [reflexivity|lia]|].
    destruct (statusCodeOf m =? 400)%Z; eexists _, _; split; try reflexivity; lia.
  - eexists _, _; split; [reflexivity|lia].
Qed.

(** C6. When the first function call of a model response names anything but
    the search tool, the loop throws the error for an unknown function right
    after the model's answer, on whatever pass and with whatever budget left:
    no tool is run, no further call or wait is made.  When this happens on
    the first round of a request, the handler answers with the response of
    the outer catch for that error, which is a failure, and the session keeps
    the user turn only. *)
Theorem C6_unknown_tool_aborts_the_run
    (w : World) (r : Response) (call : FunctionCall) :
  head (functionCalls r) = Some call ->
  isGoogleSearch (name call) = false ->
  (forall (sys : string) (fuel i : nat) (v : LoopVars) (s eff : Effects),
     stalled i v = false ->
     generateWithRetry w sys (contents v) s = (Returned (Some r), eff) ->
     toolLoop w sys (S fuel) i v s
     = (Threw (unknownFunction (name call)), eff))
  /\ (forall (g : Global) (req : Request) (cs : list Content) (eff : Effects),
        apiKeyMissing w = false ->
        toContents (pushedHistory g req) = Some cs ->
        generateWithRetry w (generateSystemPrompt w) cs noEffects
        = (Returned (Some r), eff) ->
        POST w g req
        = (errorResponse (unknownFunction (name call)),
           Some (<[sessionId req := pushedHistory g req]> (default ∅ g)),
           eff))
  /\ (exists (status : Z) (msg : string),
        errorResponse (unknownFunction (name call))
        = Responded status (ErrorBody msg)
        /\ status <> 200%Z).
Proof.
  intros Hcall Hname.
  assert (forall (sys : string) (fuel i : nat) (v : LoopVars) (s eff : Effects),
     stalled i v = false ->
     generateWithRetry w sys (contents v) s = (Returned (Some r), eff) ->
     toolLoop w sys (S fuel) i v s
     = (Threw (unknownFunction (name call)), eff)) as Hloop.
  { intros sys fuel i v s eff Hgo Hgen. apply toolLoop_throw.
    exact (round_unknown w sys i v s eff (Some r) call Hgo Hgen Hcall Hname). }
  split; [exact Hloop|]. split; [|apply errorResponse_is_failure].
  intros g req cs eff Hkey Hcs Hgen.
  rewrite (POST_with_key w g req cs Hkey Hcs). unfold orchestrate, maxToolCalls.
  rewrite (Hloop _ 4%nat 0%nat _ noEffects eff (stalled_first cs) Hgen).
  reflexivity.
Qed.

Lemma C6_witness :
  POST strayWorld None hello
  = (errorResponse (unknownFunction (Some "lookup")),
     Some (<["s1" := pushedHistory None hello]> ∅),
     afterCall noEffects helloContents).
Proof.
  exact (proj1 (proj2
           (C6_unknown_tool_aborts_the_run strayWorld
              (callResponse None "lookup" "cat")
              {| name := Some "lookup"; args := Some {| query := Some "cat" |} |}
              eq_refl eq_refl))
           None hello helloContents (afterCall noEffects helloContents)
           eq_refl eq_refl eq_refl).
Defined.

(** In one pass the search tool runs at most once, and then on the query of
    the first function call of the response. *)
Lemma round_searches (w : World) (sys : string) (i : nat) (v : LoopVars)
    (s : Effects) :
  searchesOf (log (round w sys i v s).2) = searchesOf (log s)
  \/ exists (r : Response) (call : FunctionCall) (a : Args) (eff : Effects),
       generateWithRetry w sys (contents v) s = (Returned (Some r), eff)
       /\ head (functionCalls r) = Some call
       /\ isGoogleSearch (name call) = true
       /\ args call = Some a
       /\ searchesOf (log (round w sys i v s).2)
          = (searchesOf (log s) ++ [query a])%list.
Proof.
  unfold round. destruct (stalled i v); [left; reflexivity|]. unfold bind.
  pose proof (retryLoop_searched w sys (contents v) maxRetries 0 baseDelay s)
    as [_ Hs].
  fold (generateWithRetry w sys (contents v)) in Hs.
  destruct (generateWithRetry w sys (contents v) s) as [[response|e] s1] eqn:Hgen;
    cbn [snd] in Hs; [|left; exact Hs].
  destruct response as [r|]; [|left; exact Hs]. cbn [firstCall].
  destruct (head (functionCalls r)) as [call|] eqn:Hcall; [|left; exact Hs].
  destruct (isGoogleSearch (name call)) eqn:Hname; [|left; exact Hs].
  destruct (args call) as [a|] eqn:Hargs; [|left; exact Hs].
  right. exists r, call, a, s1.
  repeat (split; [reflexivity || assumption|]).
  destruct (googleSearch_returns w (query a) s1) as (tr & -> & _).
  destruct (firstCandidateContent (Some r)); simpl;
    rewrite searchesOf_app, Hs; reflexivity.
Qed.

(** What the search tool hands back, by what the search API did. *)
Lemma googleSearch_payload (w : World) (q : option string) (s : Effects) :
  exists tr : ToolResult,
    googleSearch w q s = (Returned tr, afterSearch s q)
    /\ tr_query tr = q
    /\ search_snippet (result tr)
       = match cseList w (searched s) q with
         | Threw _ => searchFailedText
         | Returned items =>
             match default [] items with
             | [] => noResultsText
             | _ :: _ =>
                 excerptPrefix
                 +:+ stringify w (formatSearchResults (default [] items))
             end
         end.
Proof.
  unfold googleSearch, tryCatch, bind, callSearch, ret.
  destruct (cseList w (searched s) q) as [items|e].
  - destruct (default [] items) as [|item rest]; simpl;
      eexists; repeat split; reflexivity.
  - eexists; repeat split; reflexivity.
Qed.

(** C8. In one pass of the loop the search tool runs at most once, and only
    on the query of the first function call of the response, whatever other
    calls follow it.  When the first call names the search tool with its
    arguments and the first candidate has its content, the pass runs that
    one search and goes on to the next pass with exactly two turns pushed on
    the working conversation: the content of the first candidate, then a turn
    of role function whose single part is the function response named
    googleSearch carrying the result of that search, that is the payload the
    tool built from what the search API gave for the query. *)
Theorem C8_first_call_dispatched_and_two_turns_pushed
    (w : World) (sys : string) (i : nat) (v : LoopVars) (s : Effects) :
  (searchesOf (log (round w sys i v s).2) = searchesOf (log s)
   \/ exists (r : Response) (call : FunctionCall) (a : Args) (eff : Effects),
        generateWithRetry w sys (contents v) s = (Returned (Some r), eff)
        /\ head (functionCalls r) = Some call
        /\ isGoogleSearch (name call) = true
        /\ args call = Some a
        /\ searchesOf (log (round w sys i v s).2)
           = (searchesOf (log s) ++ [query a])%list)
  /\ (forall (eff : Effects) (r : Response) (call : FunctionCall)
             (others : list FunctionCall) (a : Args) (c : Content),
        stalled i v = false ->
        generateWithRetry w sys (contents v) s = (Returned (Some r), eff) ->
        functionCalls r = call :: others ->
        isGoogleSearch (name call) = true ->
        args call = Some a ->
        firstCandidateContent (Some r) = Some c ->
        exists (tr : ToolResult) (v' : LoopVars) (eff' : Effects),
          round w sys i v s = (Returned (Next v'), eff')
          /\ contents v'
             = (contents v
                  ++ [c;
                      {| c_role := "function";
                         parts := [FunctionResponsePart "googleSearch"
                                                        (result tr)] |}])%list
          /\ googleSearch w (query a) eff = (Returned tr, eff')
          /\ tr_query tr = query a
          /\ search_snippet (result tr)
             = match cseList w (searched eff) (query a) with
               | Threw _ => searchFailedText
               | Returned items =>
                   match default [] items with
                   | [] => noResultsText
                   | _ :: _ =>
                       excerptPrefix
                       +:+ stringify w
                             (formatSearchResults (default [] items))
                   end
               end
          /\ log eff' = (log eff ++ [Search (query a)])%list
          /\ searched eff' = S (searched eff)
          /\ generated eff' = generated eff).
Proof.
  split; [apply round_searches|].
  intros eff r call others a c Hgo Hgen Hcalls Hname Hargs Hcontent.
  destruct (round_dispatch w sys i v s eff (Some r) call a c Hgo Hgen
              ltac:(simpl; rewrite Hcalls; reflexivity) Hname Hargs Hcontent)
    as (tr & Htool & Hround).
  destruct (googleSearch_payload w (query a) eff) as (tr' & Htool' & Hq & Hp).
  rewrite Htool in Htool'. injection Htool' as <-.
  eexists tr, _, _. split; [exact Hround|].
  repeat split; try reflexivity; assumption.
Qed.

Lemma C8_witness :
  exists (v' : LoopVars) (eff' : Effects),
    round twoCallsWorld "system prompt" 0
          {| contents := helloContents; contentsLength := 1;
             fullResponse := None |} noEffects
    = (Returned (Next v'), eff')
    /\ contents v'
       = (helloContents
            ++ [{| c_role := "model";
                   parts := [FunctionCallPart
                               {| name := Some "googleSearch";
                                  args := Some {| query := Some "cat" |} |};
                             FunctionCallPart
                               {| name := Some "lookup";
                                  args := Some {| query := Some "dog" |} |}] |};
                {| c_role := "function";
                   parts := [FunctionResponsePart "googleSearch"
                               {| search_snippet := noResultsText |}] |}])%list
    /\ log eff' = [Generate 0 helloContents; Search (Some "cat")].
Proof.
  destruct (proj2 (C8_first_call_dispatched_and_two_turns_pushed
                     twoCallsWorld "system prompt" 0
                     {| contents := helloContents; contentsLength := 1;
                        fullResponse := None |}
                     noEffects)
              (afterCall noEffects helloContents)
              twoCalls _ _ _ _ eq_refl eq_refl eq_refl eq_refl eq_refl eq_refl)
    as (tr & v' & eff' & Hround & Hcontents & _ & _ & Hsnippet & Hlog & _).
  exists v', eff'. split; [exact Hround|]. split; [|exact Hlog].
  rewrite Hcontents. destruct tr as [q [snip]]. cbn in Hsnippet.
  rewrite Hsnippet. reflexivity.
Defined.

(** ** Exhausting the tool-call budget *)

Lemma dispatchable_inv (r : Response) :
  dispatchable r = true ->
  exists (call : FunctionCall) (a : Args) (c : Content),
    firstCall (Some r) = Some call
    /\ isGoogleSearch (name call) = true
    /\ args call = Some a
    /\ firstCandidateContent (Some r) = Some c.
Proof.
  unfold dispatchable. cbn [firstCall].
  destruct (head (functionCalls r)) as [call|]; [|discriminate].
  intros H. apply andb_true_iff in H as [H Hc].
  apply andb_true_iff in H as [Hn Ha].
  apply bool_decide_eq_true in Ha as [a Ha].
  apply bool_decide_eq_true in Hc as [c Hc].
  exists call, a, c. auto.
Qed.

(** After a pass that pushed turns, the guard lets the next pass through. *)
Lemma stalled_after_push (i : nat) (v : LoopVars) (c t : Content)
    (response : option Response) :
  (contentsLength v <= length (contents v))%nat ->
  stalled (S i) {| contents := (contents v ++ [c; t])%list;
                   contentsLength := seenLength v;
                   fullResponse := response |} = false.
Proof.
  intros Hle. unfold stalled, seenLength. cbn [contents contentsLength].
  rewrite length_app. simpl length.
  destruct (contentsLength v <? length (contents v))%nat eqn:Hlt.
  - replace (length (contents v) <? length (contents v) + 2)%nat with true
      by (symmetry; apply Nat.ltb_lt; lia).
    reflexivity.
  - replace (contentsLength v <? length (contents v) + 2)%nat with true
      by (symmetry; apply Nat.ltb_lt; lia).
    reflexivity.
Qed.

Lemma seenLength_le (v : LoopVars) :
  (contentsLength v <= length (contents v))%nat ->
  (seenLength v <= length (contents v))%nat.
Proof.
  intros Hle. unfold seenLength.
  destruct (contentsLength v <? length (contents v))%nat; lia.
Qed.

(** A model that answers every call with a dispatchable search request keeps
    the loop going for as many passes as it has left: one call and one search
    per pass, no wait, two turns pushed per pass, and at the end
    [fullResponse] is the answer to the last call made. *)
Lemma toolLoop_always_searching (w : World) (sys : string) :
  (forall (n : nat) (c : list Content),
     exists r : Response,
       generateContent w n sys c = Returned r /\ dispatchable r = true) ->
  forall (fuel i : nat) (v : LoopVars) (s : Effects),
    stalled i v = false ->
    (contentsLength v <= length (contents v))%nat ->
    exists (v' : LoopVars) (s' : Effects),
      toolLoop w sys fuel i v s = (Returned v', s')
      /\ generated s' = (generated s + fuel)%nat
      /\ searched s' = (searched s + fuel)%nat
      /\ delaysOf (log s') = delaysOf (log s)
      /\ length (contents v') = (length (contents v) + 2 * fuel)%nat
      /\ ((0 < fuel)%nat ->
          exists (c : list Content) (r : Response),
            generateContent w (generated s + fuel - 1) sys c = Returned r
            /\ In (Generate (generated s + fuel - 1) c) (log s')
            /\ fullResponse v' = Some r).
Proof.
  intros Hmodel. induction fuel as [|fuel IH]; intros i v s Hgo Hle.
  - exists v, s. split; [reflexivity|].
    repeat split; lia.
  - destruct (Hmodel (generated s) (contents v)) as (r & Hr & Hd).
    destruct (dispatchable_inv r Hd) as (call & a & c & Hcall & Hn & Ha & Hc).
    assert (generateWithRetry w sys (contents v) s
            = (Returned (Some r), afterCall s (contents v))) as Hgen
      by (apply retryLoop_returns; exact Hr).
    destruct (round_dispatch w sys i v s _ (Some r) call a c
                Hgo Hgen Hcall Hn Ha Hc) as (tr & _ & Hround).
    rewrite (toolLoop_next w sys fuel i v _ s _ Hround).
    set (v1 := {| contents := (contents v ++ [c; functionTurn tr])%list;
                  contentsLength := seenLength v;
                  fullResponse := Some r |}).
    set (s1 := afterSearch (afterCall s (contents v)) (query a)).
    assert (length (contents v1) = length (contents v) + 2)%nat as Hlen
      by (unfold v1; cbn [contents]; rewrite length_app; reflexivity).
    destruct (IH (S i) v1 s1) as (v' & s' & Hrun & Hg & Hs & Hdel & Hcs & Hlast).
    + apply stalled_after_push. exact Hle.
    + unfold v1. cbn [contents contentsLength].
      pose proof (seenLength_le v Hle). rewrite length_app. simpl. lia.
    + exists v', s'. split; [exact Hrun|].
      assert (generated s1 = S (generated s)) as Hg1 by reflexivity.
      assert (searched s1 = S (searched s)) as Hs1 by reflexivity.
      assert (delaysOf (log s1) = delaysOf (log s)) as Hd1.
      { unfold s1. simpl. rewrite !delaysOf_app. simpl.
        rewrite !app_nil_r. reflexivity. }
      split; [lia|]. split; [lia|]. split; [congruence|]. split; [lia|].
      intros _. destruct fuel as [|fuel].
      * exists (contents v), r.
        replace (generated s + 1 - 1)%nat with (generated s) by lia.
        split; [exact Hr|].
        cbn [toolLoop] in Hrun. injection Hrun as <- <-.
        split; [|reflexivity].
        unfold s1. simpl. apply in_or_app. left. apply in_or_app. right.
        left. reflexivity.
      * destruct Hlast as (c' & r' & Hr' & Hin & Hfull); [lia|].
        exists c', r'.
        replace (generated s + S (S fuel) - 1)%nat
          with (generated s1 + S fuel - 1)%nat by lia.
        auto.
Qed.

(** C4, as stated, fails for a model whose search requests carry no text:
    after five rounds the caller gets the fixed apology, although no answer
    of the model had any text. *)
Lemma C4_mute_searches_end_with_the_apology :
  (forall (n : nat) (c : list Content),
     exists r : Response,
       generateContent muteSearchingWorld n
                       (generateSystemPrompt muteSearchingWorld) c
       = Returned r
       /\ dispatchable r = true /\ r_text r = None)
  /\ generated (effectsOf (POST muteSearchingWorld None hello)) = 5%nat
  /\ outcomeOf (POST muteSearchingWorld None hello)
     = Responded 200 (MessageBody fallbackReply).
Proof.
  split; [|split; reflexivity].
  intros n c. eexists. repeat split; reflexivity.
Qed.

(** C4, amended.  With the budget of five passes and a model that answers
    every call with a dispatchable search request, the handler makes exactly
    five model calls and five searches, waits never, and answers 200 with
    the text of the answer to the fifth call when that answer has a text,
    and with the fixed apology when it has none: no error is raised. *)
Theorem C4_budget_of_five_ends_with_last_text_or_apology
    (w : World) (g : Global) (req : Request) (cs : list Content) :
  apiKeyMissing w = false ->
  toContents (pushedHistory g req) = Some cs ->
  (forall (n : nat) (c : list Content),
     exists r : Response,
       generateContent w n (generateSystemPrompt w) c = Returned r
       /\ dispatchable r = true) ->
  maxToolCalls = 5%nat
  /\ exists (c : list Content) (r : Response),
       generateContent w 4 (generateSystemPrompt w) c = Returned r
       /\ In (Generate 4 c) (log (effectsOf (POST w g req)))
       /\ generated (effectsOf (POST w g req)) = 5%nat
       /\ searched (effectsOf (POST w g req)) = 5%nat
       /\ delaysOf (log (effectsOf (POST w g req))) = []
       /\ outcomeOf (POST w g req)
          = Responded 200 (MessageBody (replyOf (Some r)))
       /\ (forall t : string,
             r_text r = Some t ->
             outcomeOf (POST w g req) = Responded 200 (MessageBody t))
       /\ (r_text r = None ->
           outcomeOf (POST w g req)
           = Responded 200 (MessageBody fallbackReply)).
Proof.
  intros Hkey Hcs Hmodel. split; [reflexivity|].
  destruct (toolLoop_always_searching w (generateSystemPrompt w) Hmodel
              maxToolCalls 0
              {| contents := cs; contentsLength := length cs;
                 fullResponse := None |}
              noEffects (stalled_first cs) (Nat.le_refl _))
    as (v' & s' & Hrun & Hg & Hs & Hdel & _ & Hlast).
  destruct Hlast as (c & r & Hr & Hin & Hfull); [unfold maxToolCalls; lia|].
  exists c, r. simpl in Hr, Hin, Hg, Hs, Hdel.
  rewrite (POST_with_key w g req cs Hkey Hcs). unfold orchestrate.
  rewrite Hrun. unfold outcomeOf, effectsOf. cbn [fst snd]. rewrite Hfull.
  split; [exact Hr|]. split; [exact Hin|]. split; [exact Hg|].
  split; [exact Hs|]. split; [exact Hdel|]. split; [reflexivity|].
  split.
  - intros t Ht. simpl. rewrite Ht. reflexivity.
  - intros Hnot. simpl. rewrite Hnot. reflexivity.
Qed.

Lemma C4_witness :
  generated (effectsOf (POST searchingWorld None hello)) = 5%nat
  /\ searched (effectsOf (POST searchingWorld None hello)) = 5%nat
  /\ outcomeOf (POST searchingWorld None hello)
     = Responded 200 (MessageBody "still searching").
Proof.
  destruct (C4_budget_of_five_ends_with_last_text_or_apology
              searchingWorld None hello helloContents eq_refl eq_refl)
    as (_ & c & r & Hr & _ & Hg & Hs & _ & _ & Htext & _).
  - intros n c. eexists. split; reflexivity.
  - split; [exact Hg|]. split; [exact Hs|].
    apply Htext. injection Hr as <-. reflexivity.
Defined.

(** ** The session store *)

Lemma storedHistory_insert (m : gmap string History) (sid sid' : string)
    (h : History) :
  storedHistory (Some (<[sid := h]> m)) sid'
  = if decide (sid = sid') then h else storedHistory (Some m) sid'.
Proof.
  unfold storedHistory. simpl. rewrite lookup_insert.
  destruct (decide (sid = sid')); reflexivity.
Qed.

Lemma storedHistory_default (g : Global) (sid : string) :
  storedHistory (Some (default ∅ g)) sid = storedHistory g sid.
Proof. reflexivity. Qed.

(** The stored history of every session after a call of the handler. *)
Lemma POST_history (w : World) (g : Global) (req : Request) (sid : string) :
  storedHistory (globalOf (POST w g req)) sid
  = if apiKeyMissing w then storedHistory g sid
    else if decide (sessionId req = sid)
         then (pushedHistory g req ++ assistantTurn (outcomeOf (POST w g req)))%list
         else storedHistory g sid.
Proof.
  unfold POST, globalOf, outcomeOf.
  destruct (apiKeyMissing w); [reflexivity|].
  fold (pushedHistory g req).
  destruct (toContents (pushedHistory g req)) as [cs|]; cbn [fst snd].
  - destruct (orchestrate w (generateSystemPrompt w) cs noEffects)
      as [[v|e] eff]; cbn [fst snd].
    + rewrite !storedHistory_insert, storedHistory_default.
      destruct (decide (sessionId req = sid)); reflexivity.
    + rewrite storedHistory_insert, storedHistory_default.
      destruct (errorResponse_is_failure e) as (st & msg & -> & _).
      destruct (decide (sessionId req = sid)); [|reflexivity].
      simpl. rewrite app_nil_r. reflexivity.
  - rewrite storedHistory_insert, storedHistory_default.
    destruct (decide (sessionId req = sid)); [|reflexivity].
    simpl. rewrite app_nil_r. reflexivity.
Qed.

(** C9. Whatever the request and however it ends, the history stored for
    every session before the call is a prefix of the history stored after
    it, and the histories of the other sessions are unchanged.  When the
    request fails, the session served keeps every turn pushed before the
    failure: with a key configured, its history is the former history
    followed by the current message; without a key nothing was pushed and the
    store is as before.  When the request succeeds, the assistant turn
    follows the current message. *)
Theorem C9_stored_history_is_append_only
    (w : World) (g : Global) (req : Request) (sid : string) :
  storedHistory g sid `prefix_of` storedHistory (globalOf (POST w g req)) sid
  /\ (sid <> sessionId req ->
      storedHistory (globalOf (POST w g req)) sid = storedHistory g sid)
  /\ (failed (outcomeOf (POST w g req)) = true ->
      storedHistory (globalOf (POST w g req)) (sessionId req)
      = if apiKeyMissing w then storedHistory g (sessionId req)
        else (storedHistory g (sessionId req) ++ [last (messages req)])%list)
  /\ (forall reply : string,
        outcomeOf (POST w g req) = Responded 200 (MessageBody reply) ->
        storedHistory (globalOf (POST w g req)) (sessionId req)
        = (storedHistory g (sessionId req)
             ++ [last (messages req);
                 Some {| role := assistant; content := reply |}])%list).
Proof.
  split; [|split; [|split]].
  - rewrite POST_history. destruct (apiKeyMissing w); [reflexivity|].
    destruct (decide (sessionId req = sid)) as [<-|]; [|reflexivity].
    unfold pushedHistory. rewrite <- app_assoc. apply prefix_app_r. reflexivity.
  - intros Hne. rewrite POST_history. destruct (apiKeyMissing w); [reflexivity|].
    destruct (decide (sessionId req = sid)); [congruence|reflexivity].
  - intros Hfail. rewrite POST_history. destruct (apiKeyMissing w); [reflexivity|].
    destruct (decide (sessionId req = sessionId req)); [|congruence].
    destruct (outcomeOf (POST w g req)) as [st [reply|msg]|err];
      [discriminate Hfail| |]; simpl; rewrite app_nil_r; reflexivity.
  - intros reply Hok. rewrite POST_history.
    destruct (apiKeyMissing w) eqn:Hkey.
    + unfold POST, outcomeOf in Hok. rewrite Hkey in Hok. discriminate Hok.
    + destruct (decide (sessionId req = sessionId req)); [|congruence].
      rewrite Hok. unfold pushedHistory. simpl. rewrite <- app_assoc.
      reflexivity.
Qed.

Lemma C9_witness :
  storedHistory (globalOf (POST strayWorld None hello)) "s1"
  = [Some {| role := user; content := "hello" |}]
  /\ storedHistory (globalOf (POST strayWorld None hello)) "s2" = []
  /\ storedHistory (globalOf (POST answeringWorld None hello)) "s1"
     = [Some {| role := user; content := "hello" |};
        Some {| role := assistant; content := "hi" |}].
Proof.
  split; [|split].
  - exact (proj1 (proj2 (proj2
             (C9_stored_history_is_append_only strayWorld None hello "s1")))
             eq_refl).
  - apply (proj1 (proj2
             (C9_stored_history_is_append_only strayWorld None hello "s2"))).
    discriminate.
  - exact (proj2 (proj2 (proj2
             (C9_stored_history_is_append_only answeringWorld None hello "s1")))
             "hi" eq_refl).
Defined.

(** ** What the request contributes *)

Lemma toContents_snoc (h : History) (m : Message) (cs : list Content) :
  toContents h = Some cs ->
  toContents (h ++ [Some m]) = Some (cs ++ [toContent m])%list.
Proof.
  revert cs. induction h as [|[msg|] h IH]; intros cs H; simpl in *.
  - injection H as <-. reflexivity.
  - destruct (toContents h) as [cs'|]; [|discriminate H].
    injection H as <-. rewrite (IH cs' eq_refl). reflexivity.
  - discriminate H.
Qed.

Lemma toContents_undefined (h : History) :
  toContents (h ++ [None]) = None.
Proof.
  induction h as [|[msg|] h IH]; simpl; [reflexivity| |reflexivity].
  rewrite IH. reflexivity.
Qed.

(** A request with an empty [messages] array pushes [undefined] on the
    history, and the conversion of line 108, outside the [try], throws: the
    handler is left by that exception, before any call of the model. *)
Lemma POST_without_messages (w : World) (g : Global) (sid : string) :
  apiKeyMissing w = false ->
  POST w g {| messages := []; sessionId := sid |}
  = (Rejected roleUndefined,
     Some (<[sid := (storedHistory g sid ++ [None])%list]> (default ∅ g)),
     noEffects).
Proof.
  intros Hkey. unfold POST. rewrite Hkey. cbn [messages sessionId last].
  rewrite toContents_undefined. reflexivity.
Qed.

(** A pass of the tool loop that is let through begins with a call of the
    model on the working conversation, and the log only grows. *)
Lemma round_log_begins (w : World) (sys : string) (i : nat) (v : LoopVars)
    (s : Effects) :
  stalled i v = false ->
  exists l : list Event,
    log (round w sys i v s).2
    = (log s ++ Generate (generated s) (contents v) :: l)%list.
Proof.
  intros Hgo. unfold round. rewrite Hgo. unfold bind.
  destruct (retryLoop_log_begins w sys (contents v) 4 0 baseDelay s) as [l Hl].
  fold maxRetries in Hl. fold (generateWithRetry w sys (contents v)) in Hl.
  destruct (generateWithRetry w sys (contents v) s) as [[response|e] s1];
    cbn [snd] in Hl; [|exists l; exact Hl].
  destruct (firstCall response) as [call|]; [|exists l; exact Hl].
  destruct (isGoogleSearch (name call)); [|exists l; exact Hl].
  destruct (args call) as [a|]; [|exists l; exact Hl].
  destruct (googleSearch_returns w (query a) s1) as (tr & -> & _).
  exists (l ++ [Search (query a)])%list.
  destruct (firstCandidateContent response); simpl; rewrite Hl;
    rewrite <- app_assoc; reflexivity.
Qed.

Lemma round_log_grows (w : World) (sys : string) (i : nat) (v : LoopVars)
    (s : Effects) :
  exists l : list Event, log (round w sys i v s).2 = (log s ++ l)%list.
Proof.
  destruct (stalled i v) eqn:Hgo.
  - unfold round. rewrite Hgo. exists []. simpl. rewrite app_nil_r. reflexivity.
  - destruct (round_log_begins w sys i v s Hgo) as [l Hl]. eexists. exact Hl.
Qed.

Lemma toolLoop_log_grows (w : World) (sys : string) (fuel i : nat)
    (v : LoopVars) (s : Effects) :
  exists l : list Event, log (toolLoop w sys fuel i v s).2 = (log s ++ l)%list.
Proof.
  revert i v s. induction fuel as [|fuel IH]; intros i v s.
  - exists []. simpl. rewrite app_nil_r. reflexivity.
  - cbn [toolLoop]. unfold bind.
    destruct (round_log_grows w sys i v s) as [l Hl].
    destruct (round w sys i v s) as [[[v'|v']|e] s1]; cbn [snd] in Hl;
      try (exists l; exact Hl).
    destruct (IH (S i) v' s1) as [l' Hl']. rewrite Hl', Hl, <- app_assoc.
    eexists. reflexivity.
Qed.

Lemma toolLoop_log_begins (w : World) (sys : string) (fuel i : nat)
    (v : LoopVars) (s : Effects) :
  stalled i v = false ->
  exists l : list Event,
    log (toolLoop w sys (S fuel) i v s).2
    = (log s ++ Generate (generated s) (contents v) :: l)%list.
Proof.
  intros Hgo. cbn [toolLoop]. unfold bind.
  destruct (round_log_begins w sys i v s Hgo) as [l Hl].
  destruct (round w sys i v s) as [[[v'|v']|e] s1]; cbn [snd] in Hl;
    try (exists l; exact Hl).
  destruct (toolLoop_log_grows w sys fuel (S i) v' s1) as [l' Hl'].
  rewrite Hl', Hl, <- app_assoc. eexists. reflexivity.
Qed.

(** C10. The handler reads the request's messages only through their last
    element: two requests of one session that end with the same message are
    served alike, whatever precedes it.  With a key configured, the history
    of the session after the call is its former history, then that message,
    then nothing or the assistant turn of the reply.  When the former history
    converts to contents, the first input sent to the model is exactly the
    converted former history followed by the converted message. *)
Theorem C10_only_the_last_message_is_read
    (w : World) (g : Global) (sid : string) (earlier earlier' : list Message)
    (m : Message) :
  let req := {| messages := earlier ++ [m]; sessionId := sid |} in
  let req' := {| messages := earlier' ++ [m]; sessionId := sid |} in
  POST w g req = POST w g req'
  /\ (apiKeyMissing w = false ->
      exists tail : History,
        storedHistory (globalOf (POST w g req)) sid
        = (storedHistory g sid ++ Some m :: tail)%list
        /\ (tail = []
            \/ exists reply : string,
                 tail = [Some {| role := assistant; content := reply |}]))
  /\ (apiKeyMissing w = false ->
      forall cs0 : list Content,
        toContents (storedHistory g sid) = Some cs0 ->
        head (log (effectsOf (POST w g req)))
        = Some (Generate 0 (cs0 ++ [toContent m]))).
Proof.
  intros req req'. split; [|split].
  - unfold POST, req, req'. cbn [messages sessionId]. rewrite !last_snoc.
    reflexivity.
  - intros Hkey. rewrite POST_history, Hkey.
    destruct (decide (sessionId req = sid)) as [_|Hne]; [|exfalso; apply Hne; reflexivity].
    unfold pushedHistory, req. cbn [messages sessionId]. rewrite last_snoc.
    rewrite <- app_assoc. eexists. split; [reflexivity|].
    destruct (outcomeOf _) as [st [reply|msg]|err]; simpl; eauto.
  - intros Hkey cs0 Hcs0.
    assert (toContents (pushedHistory g req) = Some (cs0 ++ [toContent m])%list)
      as Hcs.
    { unfold pushedHistory, req. cbn [messages sessionId]. rewrite last_snoc.
      apply toContents_snoc. exact Hcs0. }
    rewrite (POST_with_key w g req _ Hkey Hcs). unfold orchestrate, maxToolCalls.
    destruct (toolLoop_log_begins w (generateSystemPrompt w) 4 0
                {| contents := (cs0 ++ [toContent m])%list;
                   contentsLength := length (cs0 ++ [toContent m])%list;
                   fullResponse := None |}
                noEffects (stalled_first _)) as [l Hl].
    destruct (toolLoop _ _ _ _ _ _) as [[v|e] eff]; cbn [snd] in Hl;
      unfold effectsOf; cbn [snd]; rewrite Hl; reflexivity.
Qed.

Lemma C10_witness :
  (exists tail : History,
     storedHistory
       (globalOf (POST answeringWorld None
                       {| messages := [{| role := assistant; content := "old" |};
                                       {| role := user; content := "hello" |}];
                          sessionId := "s1" |})) "s1"
     = Some {| role := user; content := "hello" |} :: tail
     /\ (tail = []
         \/ exists reply : string,
              tail = [Some {| role := assistant; content := reply |}]))
  /\ head (log (effectsOf
                  (POST answeringWorld None
                        {| messages := [{| role := assistant; content := "old" |};
                                        {| role := user; content := "hello" |}];
                           sessionId := "s1" |})))
     = Some (Generate 0 helloContents).
Proof.
  pose proof (C10_only_the_last_message_is_read answeringWorld None "s1"
                [{| role := assistant; content := "old" |}] []
                {| role := user; content := "hello" |}) as (_ & Hstore & Hinput).
  split; [exact (Hstore eq_refl)|exact (Hinput eq_refl [] eq_refl)].
Defined.

(** * Further properties of the route *)

(** ** The search tool *)

(** [formatSearchResults] keeps the number and the order of the items and
    their title, snippet and link, drops every other field, and formatting
    twice is formatting once. *)
Theorem formatSearchResults_projects (items : list SearchItem) :
  length (formatSearchResults items) = length items
  /\ map title (formatSearchResults items) = map title items
  /\ map snippet (formatSearchResults items) = map snippet items
  /\ map link (formatSearchResults items) = map link items
  /\ Forall (fun item => otherFields item = []) (formatSearchResults items)
  /\ formatSearchResults (formatSearchResults items)
     = formatSearchResults items.
Proof.
  unfold formatSearchResults.
  induction items as [|item items (Hlen & Ht & Hs & Hl & Ho & Hi)].
  - repeat split; constructor.
  - simpl. rewrite Hlen, Ht, Hs, Hl, Hi.
    repeat split; try reflexivity. constructor; [reflexivity|exact Ho].
Qed.

(** The search tool contains every failure: whatever the search API does,
    [googleSearch] returns after exactly one search, echoes the query, and
    its payload is the failure text when the API threw, the no-result text
    when the API gave no items (an absent or an empty list), and otherwise
    the excerpt prefix followed by the formatted items as JSON. *)
Theorem googleSearch_contains_failures
    (w : World) (q : option string) (s : Effects) :
  exists tr : ToolResult,
    googleSearch w q s = (Returned tr, afterSearch s q)
    /\ tr_query tr = q
    /\ search_snippet (result tr)
       = match cseList w (searched s) q with
         | Threw _ => searchFailedText
         | Returned items =>
             match default [] items with
             | [] => noResultsText
             | _ :: _ =>
                 excerptPrefix
                 +:+ stringify w (formatSearchResults (default [] items))
             end
         end.
Proof.
  unfold googleSearch, tryCatch, bind, callSearch, ret.
  destruct (cseList w (searched s) q) as [items|e].
  - destruct (default [] items) as [|item rest]; simpl;
      eexists; repeat split; reflexivity.
  - eexists; repeat split; reflexivity.
Qed.

(** ** The retry executor, run by run *)

Lemma callsIn_app (l1 l2 : list Event) :
  callsIn (l1 ++ l2) = (callsIn l1 + callsIn l2)%nat.
Proof.
  induction l1 as [|ev l1 IH]; [reflexivity|].
  destruct ev; simpl; rewrite IH; reflexivity.
Qed.

Lemma inputsOf_app (l1 l2 : list Event) :
  inputsOf (l1 ++ l2) = (inputsOf l1 ++ inputsOf l2)%list.
Proof.
  induction l1 as [|ev l1 IH]; [reflexivity|].
  destruct ev; simpl; rewrite IH; reflexivity.
Qed.

Lemma waitsIn_app (l1 l2 : list Event) :
  waitsIn (l1 ++ l2) = (waitsIn l1 + waitsIn l2)%nat.
Proof. unfold waitsIn. rewrite delaysOf_app. apply length_app. Qed.

Lemma searchesIn_app (l1 l2 : list Event) :
  searchesIn (l1 ++ l2) = (searchesIn l1 + searchesIn l2)%nat.
Proof. unfold searchesIn. rewrite searchesOf_app. apply length_app. Qed.

(** The three ways of an attempt, with what decides between them. *)
Lemma retryLoop_attempt_why (w : World) (sys : string) (cs : list Content)
    (fuel attempt : nat) (d : Q) (s : Effects) :
  (exists r : Response,
     generateContent w (generated s) sys cs = Returned r
     /\ retryLoop w sys cs (S fuel) attempt d s
        = (Returned (Some r), afterCall s cs))
  \/ (exists e : Exn,
        generateContent w (generated s) sys cs = Threw e
        /\ retryable e && (attempt <? maxRetries - 1)%nat = false
        /\ retryLoop w sys cs (S fuel) attempt d s = (Threw e, afterCall s cs))
  \/ (exists e : Exn,
        generateContent w (generated s) sys cs = Threw e
        /\ retryable e = true
        /\ (attempt < maxRetries - 1)%nat
        /\ retryLoop w sys cs (S fuel) attempt d s
           = retryLoop w sys cs fuel (S attempt) (nextDelay d e)
               (afterDelay (afterCall s cs) (retryDecision d e).2)).
Proof.
  destruct (generateContent w (generated s) sys cs) as [r|e] eqn:H.
  - left. exists r. split; [reflexivity|]. apply retryLoop_returns. exact H.
  - right. destruct (retryable e && (attempt <? maxRetries - 1)%nat) eqn:Hb.
    + right. exists e. split; [reflexivity|].
      apply andb_true_iff in Hb as [Hr Hlt]. apply Nat.ltb_lt in Hlt.
      split; [exact Hr|]. split; [exact Hlt|].
      apply retryLoop_retries; assumption.
    + left. exists e. split; [reflexivity|]. split; [exact Hb|].
      apply retryLoop_throws; assumption.
Qed.

(** What a run of the retry loop adds to the log: calls of the model on the
    same contents, numbered on from the calls made before, with one wait
    between two calls and no search. *)
Lemma retryLoop_shape (w : World) (sys : string) (cs : list Content)
    (fuel attempt : nat) (d : Q) (s : Effects) :
  (maxRetries <= attempt + S fuel)%nat ->
  exists l : list Event,
    log (retryLoop w sys cs (S fuel) attempt d s).2 = (log s ++ l)%list
    /\ generated (retryLoop w sys cs (S fuel) attempt d s).2
       = (generated s + callsIn l)%nat
    /\ searched (retryLoop w sys cs (S fuel) attempt d s).2 = searched s
    /\ callsIn l = S (waitsIn l)
    /\ (callsIn l <= S fuel)%nat
    /\ searchesIn l = 0%nat
    /\ inputsOf l = replicate (callsIn l) cs.
Proof.
  revert attempt d s. induction fuel as [|fuel IH]; intros attempt d s Hfuel.
  - destruct (retryLoop_attempt_why w sys cs 0 attempt d s)
      as [(r & _ & ->)|[(e & _ & _ & ->)|(e & _ & _ & Hlt & _)]];
      [| |unfold maxRetries in *; lia];
      exists [Generate (generated s) cs]; simpl; repeat split; lia.
  - destruct (retryLoop_attempt_why w sys cs (S fuel) attempt d s)
      as [(r & _ & ->)|[(e & _ & _ & ->)|(e & _ & _ & _ & ->)]];
      try (exists [Generate (generated s) cs]; simpl; repeat split; lia).
    set (s1 := afterDelay (afterCall s cs) (retryDecision d e).2).
    destruct (IH (S attempt) (nextDelay d e) s1 ltac:(lia))
      as (l & -> & -> & -> & Hw & Hle & Hs & Hin).
    exists (Generate (generated s) cs :: Delay (retryDecision d e).2 :: l).
    unfold s1. simpl. rewrite <- !app_assoc. simpl.
    unfold waitsIn, searchesIn in *. simpl. rewrite Hin.
    repeat split; lia.
Qed.

Lemma executor_shape (w : World) (sys : string)
    (cs : list Content) (s : Effects) :
  exists l : list Event,
    log (generateWithRetry w sys cs s).2 = (log s ++ l)%list
    /\ generated (generateWithRetry w sys cs s).2
       = (generated s + callsIn l)%nat
    /\ searched (generateWithRetry w sys cs s).2 = searched s
    /\ (1 <= callsIn l <= 5)%nat
    /\ waitsIn l = (callsIn l - 1)%nat
    /\ searchesIn l = 0%nat
    /\ inputsOf l = replicate (callsIn l) cs.
Proof.
  unfold generateWithRetry, maxRetries.
  destruct (retryLoop_shape w sys cs 4 0 baseDelay s ltac:(reflexivity))
    as (l & Hlog & Hg & Hs & Hw & Hle & Hse & Hin).
  exists l. repeat split; try assumption; lia.
Qed.

(** A run of the retry executor makes between one and five calls of the
    model, all on the contents it was given, waits exactly once between two
    calls and never searches; the counter of calls advances by the number of
    calls logged. *)
Theorem generateWithRetry_shape (w : World) (sys : string)
    (cs : list Content) (s : Effects) :
  exists l : list Event,
    log (generateWithRetry w sys cs s).2 = (log s ++ l)%list
    /\ generated (generateWithRetry w sys cs s).2
       = (generated s + callsIn l)%nat
    /\ searched (generateWithRetry w sys cs s).2 = searched s
    /\ (1 <= callsIn l <= 5)%nat
    /\ waitsIn l = (callsIn l - 1)%nat
    /\ searchesIn l = 0%nat
    /\ inputsOf l = replicate (callsIn l) cs.
Proof. apply executor_shape. Qed.

Lemma retryLoop_result (w : World) (sys : string) (cs : list Content)
    (fuel attempt : nat) (d : Q) (s : Effects) :
  (maxRetries <= attempt + S fuel)%nat ->
  exists n : nat,
    generated (retryLoop w sys cs (S fuel) attempt d s).2 = S n
    /\ (generated s <= n)%nat
    /\ last (log (retryLoop w sys cs (S fuel) attempt d s).2)
       = Some (Generate n cs)
    /\ match (retryLoop w sys cs (S fuel) attempt d s).1 with
       | Returned (Some r) => generateContent w n sys cs = Returned r
       | Returned None => False
       | Threw e => generateContent w n sys cs = Threw e
       end.
Proof.
  revert attempt d s. induction fuel as [|fuel IH]; intros attempt d s Hfuel.
  - destruct (retryLoop_attempt_why w sys cs 0 attempt d s)
      as [(r & H & ->)|[(e & H & _ & ->)|(e & _ & _ & Hlt & _)]];
      [| |unfold maxRetries in *; lia];
      exists (generated s); simpl; rewrite ?last_snoc; repeat split; auto.
  - destruct (retryLoop_attempt_why w sys cs (S fuel) attempt d s)
      as [(r & H & ->)|[(e & H & _ & ->)|(e & H & _ & _ & ->)]];
      try (exists (generated s); simpl; rewrite ?last_snoc;
           repeat split; auto; fail).
    destruct (IH (S attempt) (nextDelay d e)
                 (afterDelay (afterCall s cs) (retryDecision d e).2)
                 ltac:(lia))
      as (n & Hg & Hle & Hlast & Hres).
    exists n. simpl in Hle. repeat split; auto. lia.
Qed.

Lemma executor_result (w : World) (sys : string)
    (cs : list Content) (s : Effects) :
  exists n : nat,
    generated (generateWithRetry w sys cs s).2 = S n
    /\ (generated s <= n)%nat
    /\ last (log (generateWithRetry w sys cs s).2) = Some (Generate n cs)
    /\ match (generateWithRetry w sys cs s).1 with
       | Returned (Some r) => generateContent w n sys cs = Returned r
       | Returned None => False
       | Threw e => generateContent w n sys cs = Threw e
       end.
Proof. apply retryLoop_result. reflexivity. Qed.

(** The executor ends on a call of the model and hands back what that call
    gave: its response when it returned, its error when it threw.  It never
    leaves [response] undefined. *)
Theorem generateWithRetry_hands_back_last_call (w : World) (sys : string)
    (cs : list Content) (s : Effects) :
  exists n : nat,
    generated (generateWithRetry w sys cs s).2 = S n
    /\ (generated s <= n)%nat
    /\ last (log (generateWithRetry w sys cs s).2) = Some (Generate n cs)
    /\ match (generateWithRetry w sys cs s).1 with
       | Returned (Some r) => generateContent w n sys cs = Returned r
       | Returned None => False
       | Threw e => generateContent w n sys cs = Threw e
       end.
Proof. apply executor_result. Qed.

(** ** Recovery and waits *)

(** Retried failures in a row: the loop goes through them, one call and one
    wait each, and carries on with the backoff they leave. *)
Lemma retryLoop_retries_many (w : World) (sys : string) (cs : list Content)
    (es : list Exn) (fuel attempt : nat) (d : Q) (s : Effects) :
  (attempt + length es <= maxRetries - 1)%nat ->
  (forall (k : nat) (e : Exn),
     es !! k = Some e ->
     generateContent w (generated s + k) sys cs = Threw e
     /\ retryable e = true) ->
  exists s1 : Effects,
    retryLoop w sys cs (length es + fuel) attempt d s
    = retryLoop w sys cs fuel (attempt + length es) (backoffAfter d es) s1
    /\ generated s1 = (generated s + length es)%nat
    /\ searched s1 = searched s
    /\ delaysOf (log s1) = (delaysOf (log s) ++ waitsFor d es)%list
    /\ searchesOf (log s1) = searchesOf (log s).
Proof.
  revert attempt d s.
  induction es as [|e es IH]; intros attempt d s Hbudget Hfail.
  - exists s. simpl. rewrite !Nat.add_0_r, app_nil_r. repeat split.
  - destruct (Hfail 0%nat e eq_refl) as [H0 Hr0].
    rewrite Nat.add_0_r in H0. simpl length in *.
    cbn [Nat.add].
    rewrite (retryLoop_retries w sys cs (length es + fuel) attempt d s e H0 Hr0)
      by lia.
    set (s0 := afterDelay (afterCall s cs) (retryDecision d e).2).
    destruct (IH (S attempt) (nextDelay d e) s0) as (s1 & Hrun & Hg & Hs & Hd & Hq).
    + lia.
    + intros k ek Hk. destruct (Hfail (S k) ek Hk) as [Hk1 Hk2].
      split; [|exact Hk2]. rewrite <- Hk1. f_equal. unfold s0. simpl. lia.
    + exists s1. rewrite Hrun.
      replace (S attempt + length es)%nat with (attempt + S (length es))%nat
        by lia.
      split; [reflexivity|].
      unfold s0 in Hg, Hs, Hd, Hq. simpl in Hg, Hs, Hd, Hq.
      rewrite !delaysOf_app in Hd. rewrite !searchesOf_app in Hq.
      simpl in Hd, Hq. rewrite !app_nil_r in Hd, Hq.
      rewrite Hd, Hq. simpl. rewrite <- app_assoc, ?app_nil_r.
      repeat split; try reflexivity; lia.
Qed.

(** Up to four retryable failures followed by an answer are invisible to the
    caller of the executor: it returns the answer, after one call more than
    there were failures and one wait per failure, each as the failure and the
    backoff at that point decide. *)
Theorem generateWithRetry_recovers (w : World) (sys : string)
    (cs : list Content) (s : Effects) (es : list Exn) (r : Response) :
  (length es <= 4)%nat ->
  (forall (k : nat) (e : Exn),
     es !! k = Some e ->
     generateContent w (generated s + k) sys cs = Threw e
     /\ retryable e = true) ->
  generateContent w (generated s + length es) sys cs = Returned r ->
  exists s' : Effects,
    generateWithRetry w sys cs s = (Returned (Some r), s')
    /\ generated s' = (generated s + S (length es))%nat
    /\ searched s' = searched s
    /\ delaysOf (log s') = (delaysOf (log s) ++ waitsFor baseDelay es)%list
    /\ length (waitsFor baseDelay es) = length es.
Proof.
  intros Hlen Hfail Hok. unfold generateWithRetry.
  replace maxRetries with (length es + S (4 - length es))%nat
    by (unfold maxRetries; lia).
  destruct (retryLoop_retries_many w sys cs es (S (4 - length es)) 0
              baseDelay s ltac:(unfold maxRetries; lia) Hfail)
    as (s1 & -> & Hg & Hs & Hd & _).
  rewrite <- Hg in Hok.
  rewrite (retryLoop_returns w sys cs _ _ _ s1 r Hok).
  exists (afterCall s1 cs). split; [reflexivity|]. simpl.
  rewrite delaysOf_app, Hd. simpl. rewrite app_nil_r.
  repeat split; try lia; try assumption.
  clear. generalize baseDelay. induction es as [|e es IH]; intros d;
    [reflexivity|]. simpl. rewrite IH. reflexivity.
Qed.

Lemma generateWithRetry_recovers_witness :
  exists s' : Effects,
    generateWithRetry (failsTwice overloaded) "sys" [] noEffects
    = (Returned (Some (textResponse "ok")), s')
    /\ generated s' = 3%nat
    /\ delaysOf (log s') = [2000%Q; 4000%Q].
Proof.
  destruct (generateWithRetry_recovers (failsTwice overloaded) "sys" []
              noEffects [overloaded; overloaded] (textResponse "ok"))
    as (s' & Hrun & Hg & _ & Hd & _).
  - simpl. lia.
  - intros [|[|k]] e Hk; try discriminate Hk;
      injection Hk as <-; split; reflexivity.
  - reflexivity.
  - exists s'. split; [exact Hrun|]. split; [exact Hg|]. exact Hd.
Defined.

(** ** Giving up *)

Lemma lookup_init {A : Type} (l : list A) (x : A) (k : nat) (y : A) :
  l !! k = Some y -> ((l ++ [x])%list) !! k = Some y.
Proof. intros H. apply lookup_app_l_Some. exact H. Qed.

(** When the five attempts of the first call of a request all fail, the
    first four with retryable errors, the handler answers with the response
    of the outer catch for the fifth error, after five calls and the four
    waits the first four errors decide; nothing is searched and the session
    keeps the user turn. *)
Lemma POST_gives_up (w : World) (g : Global) (req : Request)
    (cs : list Content) (es : list Exn) (e : Exn) :
  apiKeyMissing w = false ->
  toContents (pushedHistory g req) = Some cs ->
  length es = 4%nat ->
  (forall (k : nat) (ek : Exn),
     es !! k = Some ek ->
     generateContent w k (generateSystemPrompt w) cs = Threw ek
     /\ retryable ek = true) ->
  generateContent w 4 (generateSystemPrompt w) cs = Threw e ->
  outcomeOf (POST w g req) = errorResponse e
  /\ generated (effectsOf (POST w g req)) = 5%nat
  /\ searched (effectsOf (POST w g req)) = 0%nat
  /\ delaysOf (log (effectsOf (POST w g req))) = waitsFor baseDelay es
  /\ storedHistory (globalOf (POST w g req)) (sessionId req)
     = pushedHistory g req.
Proof.
  intros Hkey Hcs Hlen Hfail Hlast.
  destruct (retryLoop_retries_many w (generateSystemPrompt w) cs es 1 0
              baseDelay noEffects
              ltac:(unfold maxRetries; lia) Hfail)
    as (s1 & Hrun & Hg & Hs & Hd & _).
  rewrite Hlen in Hrun, Hg. simpl in Hg, Hs, Hd.
  change (4 + 1)%nat with maxRetries in Hrun.
  change (0 + 4)%nat with 4%nat in Hrun.
  fold (generateWithRetry w (generateSystemPrompt w) cs) in Hrun.
  rewrite <- Hg in Hlast.
  rewrite (retryLoop_throws w _ cs 0 4 _ s1 e Hlast) in Hrun
    by apply andb_false_r.
  assert (POST w g req
          = (errorResponse e,
             Some (<[sessionId req := pushedHistory g req]> (default ∅ g)),
             afterCall s1 cs)) as ->.
  { rewrite (POST_with_key w g req cs Hkey Hcs).
    unfold orchestrate, maxToolCalls.
    rewrite (toolLoop_throw w _ 4 0 _ noEffects (afterCall s1 cs) e
               (round_failed w _ 0 _ noEffects _ e (stalled_first cs) Hrun)).
    reflexivity. }
  unfold outcomeOf, effectsOf, globalOf. simpl.
  rewrite delaysOf_app, Hd. simpl. rewrite app_nil_r.
  rewrite storedHistory_insert.
  destruct (decide (sessionId req = sessionId req)); [|congruence].
  repeat split; try reflexivity; lia.
Qed.

Lemma waitsFor_overloaded (d : Q) (es : list Exn) :
  Forall (statusWritten "503") es ->
  waitsFor d es = doublings d (length es).
Proof.
  intros H. revert d. induction H as [|e es (m & -> & Hm) _ IH]; intros d;
    [reflexivity|].
  destruct (written_503 m Hm) as [Hc Hn]. simpl.
  rewrite Hc, Hn. simpl. rewrite IH. reflexivity.
Qed.

Lemma waitsFor_plain_rate_limit (d : Q) (es : list Exn) :
  Forall plainRateLimit es ->
  waitsFor d es = replicate (length es) d.
Proof.
  intros H. revert d.
  induction H as [|e es (m & -> & Hc & Ha & Hn) _ IH]; intros d;
    [reflexivity|].
  simpl. rewrite Hc, Ha, Hn. simpl. rewrite IH. reflexivity.
Qed.

(** An upstream that stays overloaded: when the first five calls of a
    request all fail with a message whose first status code is written 503,
    the handler waits 2000, 4000, 8000 and 16000 ms between them and then
    answers 503, whatever else the messages contain. *)
Theorem POST_overloaded_five_times (w : World) (g : Global) (req : Request)
    (cs : list Content) (es : list Exn) :
  apiKeyMissing w = false ->
  toContents (pushedHistory g req) = Some cs ->
  length es = 5%nat ->
  (forall (k : nat) (e : Exn),
     es !! k = Some e ->
     generateContent w k (generateSystemPrompt w) cs = Threw e
     /\ statusWritten "503" e) ->
  outcomeOf (POST w g req) = Responded 503 stillOverloaded
  /\ generated (effectsOf (POST w g req)) = 5%nat
  /\ delaysOf (log (effectsOf (POST w g req)))
     = [2000%Q; 4000%Q; 8000%Q; 16000%Q]
  /\ storedHistory (globalOf (POST w g req)) (sessionId req)
     = pushedHistory g req.
Proof.
  intros Hkey Hcs Hlen Hfail.
  destruct es as [|e0 [|e1 [|e2 [|e3 [|e4 [|e5 es]]]]]]; try discriminate Hlen.
  destruct (Hfail 4%nat e4 eq_refl) as [H4 (m4 & -> & Hm4)].
  assert (Forall (statusWritten "503") [e0; e1; e2; e3]) as Hall.
  { repeat constructor.
    - exact (proj2 (Hfail 0%nat e0 eq_refl)).
    - exact (proj2 (Hfail 1%nat e1 eq_refl)).
    - exact (proj2 (Hfail 2%nat e2 eq_refl)).
    - exact (proj2 (Hfail 3%nat e3 eq_refl)). }
  destruct (POST_gives_up w g req cs [e0; e1; e2; e3] (ErrorObj m4)
              Hkey Hcs eq_refl) as (Ho & Hg & _ & Hd & Hh).
  - intros k ek Hk.
    destruct (Hfail k ek (lookup_init _ (ErrorObj m4) _ _ Hk))
      as [Hk1 (m & -> & Hm)].
    split; [exact Hk1|]. destruct (written_503 m Hm) as [Hc _].
    simpl. rewrite Hc. reflexivity.
  - exact H4.
  - rewrite Ho, Hg, Hd, Hh, (waitsFor_overloaded _ _ Hall).
    destruct (written_503 m4 Hm4) as [Hc _].
    unfold errorResponse. rewrite Hc. repeat split.
Qed.

Lemma POST_overloaded_five_times_witness :
  outcomeOf (POST (alwaysFailing overloaded) None hello)
  = Responded 503 stillOverloaded
  /\ delaysOf (log (effectsOf (POST (alwaysFailing overloaded) None hello)))
     = [2000%Q; 4000%Q; 8000%Q; 16000%Q].
Proof.
  destruct (POST_overloaded_five_times (alwaysFailing overloaded) None hello
              helloContents (replicate 5 overloaded) eq_refl eq_refl eq_refl)
    as (Ho & _ & Hd & _).
  - intros k e Hk. apply lookup_replicate in Hk as [-> _].
    split; [reflexivity|]. eexists. split; reflexivity.
  - split; [exact Ho|exact Hd].
Defined.

(** An upstream that keeps limiting the rate: when the first five calls of a
    request all fail with a 429 that advises no wait and does not contain the
    text of line 189, the handler waits 2000 ms four times and then answers
    429. *)
Theorem POST_rate_limited_five_times (w : World) (g : Global) (req : Request)
    (cs : list Content) (es : list Exn) :
  apiKeyMissing w = false ->
  toContents (pushedHistory g req) = Some cs ->
  length es = 5%nat ->
  (forall (k : nat) (e : Exn),
     es !! k = Some e ->
     generateContent w k (generateSystemPrompt w) cs = Threw e
     /\ plainRateLimit e) ->
  outcomeOf (POST w g req) = Responded 429 quotaExceeded
  /\ generated (effectsOf (POST w g req)) = 5%nat
  /\ delaysOf (log (effectsOf (POST w g req)))
     = [2000%Q; 2000%Q; 2000%Q; 2000%Q]
  /\ storedHistory (globalOf (POST w g req)) (sessionId req)
     = pushedHistory g req.
Proof.
  intros Hkey Hcs Hlen Hfail.
  destruct es as [|e0 [|e1 [|e2 [|e3 [|e4 [|e5 es]]]]]]; try discriminate Hlen.
  destruct (Hfail 4%nat e4 eq_refl) as [H4 (m4 & -> & Hc4 & _ & _)].
  assert (Forall plainRateLimit [e0; e1; e2; e3]) as Hall.
  { repeat constructor.
    - exact (proj2 (Hfail 0%nat e0 eq_refl)).
    - exact (proj2 (Hfail 1%nat e1 eq_refl)).
    - exact (proj2 (Hfail 2%nat e2 eq_refl)).
    - exact (proj2 (Hfail 3%nat e3 eq_refl)). }
  destruct (POST_gives_up w g req cs [e0; e1; e2; e3] (ErrorObj m4)
              Hkey Hcs eq_refl) as (Ho & Hg & _ & Hd & Hh).
  - intros k ek Hk.
    destruct (Hfail k ek (lookup_init _ (ErrorObj m4) _ _ Hk))
      as [Hk1 (m & -> & Hc & _ & _)].
    split; [exact Hk1|]. simpl. rewrite Hc. reflexivity.
  - exact H4.
  - rewrite Ho, Hg, Hd, Hh, (waitsFor_plain_rate_limit _ _ Hall).
    unfold errorResponse. rewrite Hc4. repeat split.
Qed.

Lemma POST_rate_limited_five_times_witness :
  outcomeOf (POST (alwaysFailing (rateLimited "Quota exceeded.")) None hello)
  = Responded 429 quotaExceeded
  /\ delaysOf (log (effectsOf
                      (POST (alwaysFailing (rateLimited "Quota exceeded."))
                            None hello)))
     = [2000%Q; 2000%Q; 2000%Q; 2000%Q].
Proof.
  destruct (POST_rate_limited_five_times
              (alwaysFailing (rateLimited "Quota exceeded.")) None hello
              helloContents (replicate 5 (rateLimited "Quota exceeded."))
              eq_refl eq_refl eq_refl)
    as (Ho & _ & Hd & _).
  - intros k e Hk. apply lookup_replicate in Hk as [-> _].
    split; [reflexivity|]. eexists. repeat split; reflexivity.
  - split; [exact Ho|exact Hd].
Defined.

(** ** The passes of the tool loop *)

(** A pass that the guard lets through runs the retry executor; it throws
    what the executor throws, and otherwise ends in one of the five ways of
    [PassEnd]. *)
Lemma round_ends (w : World) (sys : string) (i : nat) (v : LoopVars)
    (s : Effects) :
  stalled i v = false ->
  match generateWithRetry w sys (contents v) s with
  | (Threw e, s1) => round w sys i v s = (Threw e, s1)
  | (Returned response, s1) => PassEnd w v response s1 (round w sys i v s)
  end.
Proof.
  intros Hgo. unfold round. rewrite Hgo. unfold bind, seenLength.
  destruct (generateWithRetry w sys (contents v) s) as [[response|e] s1];
    [|reflexivity].
  destruct (firstCall response) as [call|] eqn:Hcall;
    [|apply Converged; exact Hcall].
  destruct (isGoogleSearch (name call)) eqn:Hname;
    [|eapply StrayCall; eassumption].
  destruct (args call) as [a|] eqn:Hargs; [|eapply BareCall; eassumption].
  destruct (googleSearch_returns w (query a) s1) as (tr & Htool & _).
  rewrite Htool.
  destruct (firstCandidateContent response) as [c|] eqn:Hc.
  - eapply Dispatched; eassumption.
  - eapply HollowCall; eassumption.
Qed.

(** Case analysis on the end of a pass, once [round] is named. *)
Ltac pass_end H := inversion H; subst; clear H.

(** What a run of the tool loop adds to the log.  Per pass at most five
    calls of the model, four waits and one search; the counters of calls and
    searches follow the log; and every input sent to the model extends the
    contents the loop started with. *)
Lemma toolLoop_counts (w : World) (sys : string) (fuel i : nat)
    (v : LoopVars) (s : Effects) :
  stalled i v = false ->
  (contentsLength v <= length (contents v))%nat ->
  exists l : list Event,
    log (toolLoop w sys fuel i v s).2 = (log s ++ l)%list
    /\ generated (toolLoop w sys fuel i v s).2 = (generated s + callsIn l)%nat
    /\ searched (toolLoop w sys fuel i v s).2 = (searched s + searchesIn l)%nat
    /\ (callsIn l <= 5 * fuel)%nat
    /\ (waitsIn l <= 4 * fuel)%nat
    /\ (searchesIn l <= fuel)%nat
    /\ (searchesIn l <= callsIn l)%nat
    /\ Forall (fun c => contents v `prefix_of` c) (inputsOf l).
Proof.
  revert i v s. induction fuel as [|fuel IH]; intros i v s Hgo Hle.
  - exists []. unfold waitsIn, searchesIn. simpl. rewrite app_nil_r.
    repeat split; try lia; constructor.
  - cbn [toolLoop]. unfold bind.
    pose proof (round_ends w sys i v s Hgo) as Hend.
    destruct (executor_shape w sys (contents v) s)
      as (l1 & Hlog & Hg & Hs & Hc & Hw & Hse & Hin).
    assert (Forall (fun c => contents v `prefix_of` c) (inputsOf l1)) as Hpre.
    { rewrite Hin. by apply Forall_replicate. }
    destruct (round w sys i v s) as [res s2].
    destruct (generateWithRetry w sys (contents v) s) as [[response|e] s1];
      cbn [snd] in Hlog, Hg, Hs.
    2:{ injection Hend as -> ->. exists l1. cbn [snd].
        repeat split; try assumption; lia. }
    pass_end Hend; cbn [snd ret].
    + exists l1. repeat split; try assumption; lia.
    + exists l1. repeat split; try assumption; lia.
    + exists l1. repeat split; try assumption; lia.
    + set (v1 := {| contents := (contents v ++ [c; functionTurn tr])%list;
                    contentsLength := seenLength v;
                    fullResponse := response |}).
      destruct (IH (S i) v1 (afterSearch s1 (query a)))
        as (l2 & -> & -> & -> & Hc2 & Hw2 & Hs2 & Hsc2 & Hin2).
      * apply stalled_after_push. exact Hle.
      * unfold v1. cbn [contents contentsLength].
        pose proof (seenLength_le v Hle). rewrite length_app. simpl. lia.
      * exists (l1 ++ Search (query a) :: l2)%list. simpl.
        rewrite Hlog, Hg, Hs, <- !app_assoc. simpl.
        rewrite callsIn_app, waitsIn_app, searchesIn_app, inputsOf_app.
        unfold waitsIn, searchesIn in *. simpl.
        repeat split; try lia.
        apply Forall_app. split; [exact Hpre|].
        eapply Forall_impl; [exact Hin2|].
        intros c0 Hc0. etransitivity; [|exact Hc0].
        unfold v1. cbn [contents]. apply prefix_app_r. reflexivity.
    + exists (l1 ++ [Search (query a)])%list. simpl.
      rewrite Hlog, Hg, Hs, <- !app_assoc.
      rewrite callsIn_app, waitsIn_app, searchesIn_app, inputsOf_app.
      unfold waitsIn, searchesIn in *. simpl. rewrite app_nil_r.
      repeat split; try assumption; lia.
Qed.

(** A request never costs more than 25 calls of the model, 20 waits and 5
    searches, whatever the model and the search API do; the counters of the
    handler agree with its log; there are never more searches than calls. *)
Theorem POST_is_bounded (w : World) (g : Global) (req : Request) :
  let eff := effectsOf (POST w g req) in
  generated eff = callsIn (log eff)
  /\ searched eff = searchesIn (log eff)
  /\ (callsIn (log eff) <= 25)%nat
  /\ (waitsIn (log eff) <= 20)%nat
  /\ (searchesIn (log eff) <= 5)%nat
  /\ (searchesIn (log eff) <= callsIn (log eff))%nat.
Proof.
  unfold POST, effectsOf, waitsIn, searchesIn.
  destruct (apiKeyMissing w); [simpl; repeat split; lia|].
  destruct (toContents _) as [cs|]; [|simpl; repeat split; lia].
  destruct (toolLoop_counts w (generateSystemPrompt w) maxToolCalls 0
              {| contents := cs; contentsLength := length cs;
                 fullResponse := None |}
              noEffects (stalled_first cs) (Nat.le_refl _))
    as (l & Hlog & Hg & Hs & Hc & Hw & Hse & Hsc & _).
  fold (orchestrate w (generateSystemPrompt w) cs) in Hlog, Hg, Hs.
  unfold waitsIn, searchesIn, maxToolCalls in *.
  destruct (orchestrate w (generateSystemPrompt w) cs noEffects) as [[v|e] eff];
    cbn [fst snd] in *; simpl in Hlog, Hg, Hs; rewrite Hlog, Hg, Hs;
    repeat split; lia.
Qed.

(** ** How the loop is left *)

(** Every input sent to the model while serving a request extends the
    contents converted from the stored history and the current message: the
    loop only ever pushes on the working conversation. *)
Theorem POST_inputs_extend_history (w : World) (g : Global) (req : Request)
    (cs : list Content) :
  apiKeyMissing w = false ->
  toContents (pushedHistory g req) = Some cs ->
  Forall (fun c => cs `prefix_of` c)
         (inputsOf (log (effectsOf (POST w g req)))).
Proof.
  intros Hkey Hcs. rewrite (POST_with_key w g req cs Hkey Hcs).
  destruct (toolLoop_counts w (generateSystemPrompt w) maxToolCalls 0
              {| contents := cs; contentsLength := length cs;
                 fullResponse := None |}
              noEffects (stalled_first cs) (Nat.le_refl _))
    as (l & Hlog & _ & _ & _ & _ & _ & _ & Hin).
  fold (orchestrate w (generateSystemPrompt w) cs) in Hlog.
  destruct (orchestrate w (generateSystemPrompt w) cs noEffects) as [[v|e] eff];
    unfold effectsOf; cbn [fst snd] in *; rewrite Hlog; exact Hin.
Qed.

Lemma POST_inputs_extend_history_witness :
  Forall (fun c => helloContents `prefix_of` c)
         (inputsOf (log (effectsOf (POST searchOnceWorld None hello)))).
Proof.
  exact (POST_inputs_extend_history searchOnceWorld None hello helloContents
           eq_refl eq_refl).
Defined.

(** A loop that returns after at least one pass holds in [fullResponse] the
    response the model gave to the last call made, and it returned for one of
    three reasons: every pass of its budget ran a search, or that response
    carries no function call, or its first candidate has no content.  The
    guard of lines 127-131 is never the reason. *)
Lemma toolLoop_exit (w : World) (sys : string) (fuel i : nat)
    (v v' : LoopVars) (s s' : Effects) :
  stalled i v = false ->
  (contentsLength v <= length (contents v))%nat ->
  toolLoop w sys (S fuel) i v s = (Returned v', s') ->
  exists (n : nat) (c : list Content) (r : Response),
    fullResponse v' = Some r
    /\ generated s' = S n
    /\ In (Generate n c) (log s')
    /\ generateContent w n sys c = Returned r
    /\ (searched s' = (searched s + S fuel)%nat
        \/ head (functionCalls r) = None
        \/ firstCandidateContent (Some r) = None).
Proof.
  revert i v s. induction fuel as [|fuel IH]; intros i v s Hgo Hle Hrun;
    cbn [toolLoop] in Hrun; unfold bind in Hrun;
    pose proof (round_ends w sys i v s Hgo) as Hend;
    pose proof (executor_result w sys (contents v) s)
      as (n & Hn & _ & Hlast & Hres);
    destruct (executor_shape w sys (contents v) s)
      as (l1 & _ & _ & Hs & _);
    destruct (round w sys i v s) as [res s2];
    destruct (generateWithRetry w sys (contents v) s) as [[response|e] s1];
    cbn [fst snd] in Hres, Hs, Hn, Hlast;
    try (injection Hend as -> ->; discriminate Hrun);
    (destruct response as [r|]; [|contradiction]);
    apply last_Some in Hlast as [l0 Hl0];
    pass_end Hend; try discriminate Hrun.
  - injection Hrun as <- <-. exists n, (contents v), r.
    split; [reflexivity|]. split; [exact Hn|].
    split; [rewrite Hl0; apply in_or_app; right; left; reflexivity|].
    split; [exact Hres|]. right. left. assumption.
  - injection Hrun as <- <-. exists n, (contents v), r.
    split; [reflexivity|]. split; [exact Hn|].
    split; [simpl; rewrite Hl0; apply in_or_app; left; apply in_or_app;
            right; left; reflexivity|].
    split; [exact Hres|]. left. simpl. lia.
  - injection Hrun as <- <-. exists n, (contents v), r.
    split; [reflexivity|]. split; [exact Hn|].
    split; [simpl; rewrite Hl0; apply in_or_app; left; apply in_or_app;
            right; left; reflexivity|].
    split; [exact Hres|]. right. right. assumption.
  - injection Hrun as <- <-. exists n, (contents v), r.
    split; [reflexivity|]. split; [exact Hn|].
    split; [rewrite Hl0; apply in_or_app; right; left; reflexivity|].
    split; [exact Hres|]. right. left. assumption.
  - apply IH in Hrun as (n' & c' & r' & Hfull & Hn' & Hin & Hcall & Hwhy).
    + exists n', c', r'. repeat (split; [assumption|]).
      destruct Hwhy as [Hall|Hwhy]; [left|right; exact Hwhy].
      rewrite Hall. simpl. lia.
    + apply stalled_after_push. exact Hle.
    + cbn [contents contentsLength].
      pose proof (seenLength_le v Hle). rewrite length_app. simpl. lia.
  - injection Hrun as <- <-. exists n, (contents v), r.
    split; [reflexivity|]. split; [exact Hn|].
    split; [simpl; rewrite Hl0; apply in_or_app; left; apply in_or_app;
            right; left; reflexivity|].
    split; [exact Hres|]. right. right. assumption.
Qed.

(** A reply always comes from the last response of the model.  When the
    handler answers 200, at least one call of the model was made; the last
    call, on an input found in the log, returned a response; the message is
    the text of that response (or the apology when it has no text); and the
    loop was left because five searches were made, or because that response
    carries no function call, or because its first candidate has no
    content. *)
Theorem POST_reply_comes_from_a_response
    (w : World) (g : Global) (req : Request) (reply : string) :
  outcomeOf (POST w g req) = Responded 200 (MessageBody reply) ->
  exists (n : nat) (c : list Content) (r : Response),
    generated (effectsOf (POST w g req)) = S n
    /\ In (Generate n c) (log (effectsOf (POST w g req)))
    /\ generateContent w n (generateSystemPrompt w) c = Returned r
    /\ reply = default fallbackReply (r_text r)
    /\ (searched (effectsOf (POST w g req)) = 5%nat
        \/ head (functionCalls r) = None
        \/ firstCandidateContent (Some r) = None).
Proof.
  unfold POST, outcomeOf, effectsOf.
  destruct (apiKeyMissing w); [discriminate|].
  destruct (toContents _) as [cs|]; [|discriminate].
  destruct (orchestrate w (generateSystemPrompt w) cs noEffects)
    as [[v|e] eff] eqn:Hrun; cbn [fst snd].
  - intros H. injection H as <-.
    unfold orchestrate, maxToolCalls in Hrun.
    destruct (toolLoop_exit w _ 4 0 _ v noEffects eff (stalled_first cs)
                (Nat.le_refl _) Hrun)
      as (n & c & r & Hfull & Hn & Hin & Hcall & Hwhy).
    exists n, c, r. rewrite Hfull. repeat (split; [assumption|]).
    split; [reflexivity|exact Hwhy].
  - destruct (errorResponse_is_failure e) as (st & msg & -> & _). discriminate.
Qed.

Lemma POST_reply_comes_from_a_response_witness :
  exists (n : nat) (c : list Content) (r : Response),
    generated (effectsOf (POST searchOnceWorld None hello)) = S n
    /\ In (Generate n c) (log (effectsOf (POST searchOnceWorld None hello)))
    /\ generateContent searchOnceWorld n
                       (generateSystemPrompt searchOnceWorld) c
       = Returned r
    /\ "cats purr" = default fallbackReply (r_text r)
    /\ (searched (effectsOf (POST searchOnceWorld None hello)) = 5%nat
        \/ head (functionCalls r) = None
        \/ firstCandidateContent (Some r) = None).
Proof.
  exact (POST_reply_comes_from_a_response searchOnceWorld None hello
           "cats purr" eq_refl).
Defined.

(** ** One search, and searches that go wrong *)

Lemma first_attempt (w : World) (sys : string) (cs : list Content)
    (s : Effects) (r : Response) :
  generateContent w (generated s) sys cs = Returned r ->
  generateWithRetry w sys cs s = (Returned (Some r), afterCall s cs).
Proof. intros H. apply retryLoop_returns. exact H. Qed.

(** One search, then the answer.  When the model first asks for the search
    tool and answers the second call without function call, the request makes
    two calls of the model around one search; the second input is the first
    followed by the model's turn and the function turn of the result; the
    reply is the second answer; and the session stores the user turn and the
    reply only, not the two turns of the tool exchange. *)
Theorem POST_search_then_answer
    (w : World) (g : Global) (req : Request) (cs : list Content)
    (r1 r2 : Response) (call : FunctionCall) (a : Args) (c : Content)
    (tr : ToolResult) :
  apiKeyMissing w = false ->
  toContents (pushedHistory g req) = Some cs ->
  generateContent w 0 (generateSystemPrompt w) cs = Returned r1 ->
  head (functionCalls r1) = Some call ->
  isGoogleSearch (name call) = true ->
  args call = Some a ->
  firstCandidateContent (Some r1) = Some c ->
  googleSearch w (query a) (afterCall noEffects cs)
  = (Returned tr, afterSearch (afterCall noEffects cs) (query a)) ->
  generateContent w 1 (generateSystemPrompt w)
                  (cs ++ [c; functionTurn tr])%list
  = Returned r2 ->
  functionCalls r2 = [] ->
  outcomeOf (POST w g req) = Responded 200 (MessageBody (replyOf (Some r2)))
  /\ log (effectsOf (POST w g req))
     = [Generate 0 cs; Search (query a);
        Generate 1 (cs ++ [c; functionTurn tr])%list]
  /\ storedHistory (globalOf (POST w g req)) (sessionId req)
     = (pushedHistory g req
          ++ [Some {| role := assistant; content := replyOf (Some r2) |}])%list.
Proof.
  intros Hkey Hcs H1 Hcall Hname Hargs Hc Htool H2 Hnone.
  set (v0 := {| contents := cs; contentsLength := length cs;
                fullResponse := None |}).
  destruct (round_dispatch w (generateSystemPrompt w) 0 v0 noEffects
              (afterCall noEffects cs) (Some r1) call a c
              (stalled_first cs)
              (first_attempt w _ cs noEffects r1 H1)
              Hcall Hname Hargs Hc) as (tr' & Htool' & Hround1).
  cbn [contents v0] in Htool'. rewrite Htool in Htool'.
  injection Htool' as <-.
  set (v1 := {| contents := (contents v0 ++ [c; functionTurn tr])%list;
                contentsLength := seenLength v0;
                fullResponse := Some r1 |}) in Hround1.
  set (s1 := afterSearch (afterCall noEffects (contents v0)) (query a))
    in Hround1.
  assert (round w (generateSystemPrompt w) 1 v1 s1
          = (Returned (Break {| contents := contents v1;
                                contentsLength := seenLength v1;
                                fullResponse := Some r2 |}),
             afterCall s1 (contents v1))) as Hround2.
  { apply round_converged.
    - apply (stalled_after_push 0 v0 c (functionTurn tr) (Some r1)).
      apply Nat.le_refl.
    - apply first_attempt. exact H2.
    - simpl. rewrite Hnone. reflexivity. }
  assert (POST w g req
          = (Responded 200 (MessageBody (replyOf (Some r2))),
             Some (<[sessionId req :=
                       (pushedHistory g req
                          ++ [Some {| role := assistant;
                                      content := replyOf (Some r2) |}])%list]>
                     (<[sessionId req := pushedHistory g req]> (default ∅ g))),
             afterCall s1 (contents v1))) as ->.
  { rewrite (POST_with_key w g req cs Hkey Hcs).
    unfold orchestrate, maxToolCalls. fold v0.
    rewrite (toolLoop_next w _ 4 0 v0 v1 noEffects s1 Hround1).
    rewrite (toolLoop_break w _ 3 1 v1 _ s1 _ Hround2). reflexivity. }
  unfold outcomeOf, effectsOf, globalOf. cbn [fst snd].
  split; [reflexivity|]. split; [reflexivity|].
  rewrite storedHistory_insert.
  destruct (decide (sessionId req = sessionId req)); [reflexivity|congruence].
Qed.

Lemma POST_search_then_answer_witness :
  outcomeOf (POST searchOnceWorld None hello)
  = Responded 200 (MessageBody "cats purr")
  /\ storedHistory (globalOf (POST searchOnceWorld None hello)) "s1"
     = [Some {| role := user; content := "hello" |};
        Some {| role := assistant; content := "cats purr" |}].
Proof.
  destruct (POST_search_then_answer searchOnceWorld None hello helloContents
              (callResponse None "googleSearch" "cat")
              (textResponse "cats purr")
              {| name := Some "googleSearch";
                 args := Some {| query := Some "cat" |} |}
              {| query := Some "cat" |}
              {| c_role := "model";
                 parts := [FunctionCallPart
                             {| name := Some "googleSearch";
                                args := Some {| query := Some "cat" |} |}] |}
              {| tr_query := Some "cat";
                 result := {| search_snippet := noResultsText |} |}
              eq_refl eq_refl eq_refl eq_refl eq_refl eq_refl eq_refl
              eq_refl eq_refl eq_refl)
    as (Ho & _ & Hh).
  split; [exact Ho|exact Hh].
Defined.

(** A search request without [args]: reading [args.query] throws before the
    tool is run.  The request ends after the one call of the model, without
    any search, and the outer catch answers 500. *)
Theorem POST_call_without_args
    (w : World) (g : Global) (req : Request) (cs : list Content)
    (r : Response) (call : FunctionCall) :
  apiKeyMissing w = false ->
  toContents (pushedHistory g req) = Some cs ->
  generateContent w 0 (generateSystemPrompt w) cs = Returned r ->
  head (functionCalls r) = Some call ->
  isGoogleSearch (name call) = true ->
  args call = None ->
  outcomeOf (POST w g req) = Responded 500 serverError
  /\ effectsOf (POST w g req) = afterCall noEffects cs
  /\ storedHistory (globalOf (POST w g req)) (sessionId req)
     = pushedHistory g req.
Proof.
  intros Hkey Hcs H1 Hcall Hname Hargs.
  assert (round w (generateSystemPrompt w) 0
                {| contents := cs; contentsLength := length cs;
                   fullResponse := None |} noEffects
          = (Threw argsUndefined, afterCall noEffects cs)) as Hround.
  { unfold round. rewrite stalled_first. unfold bind. cbn [contents].
    rewrite (first_attempt w _ cs noEffects r H1). cbn [firstCall].
    rewrite Hcall, Hname, Hargs. reflexivity. }
  rewrite (POST_with_key w g req cs Hkey Hcs). unfold orchestrate, maxToolCalls.
  rewrite (toolLoop_throw w _ 4 0 _ noEffects _ _ Hround).
  unfold outcomeOf, effectsOf, globalOf. cbn [fst snd].
  split; [reflexivity|]. split; [reflexivity|].
  rewrite storedHistory_insert.
  destruct (decide (sessionId req = sessionId req)); [reflexivity|congruence].
Qed.

Lemma POST_call_without_args_witness :
  outcomeOf (POST bareCallWorld None hello) = Responded 500 serverError
  /\ effectsOf (POST bareCallWorld None hello)
     = afterCall noEffects helloContents.
Proof.
  destruct (POST_call_without_args bareCallWorld None hello helloContents
              bareCall {| name := Some "googleSearch"; args := None |}
              eq_refl eq_refl eq_refl eq_refl eq_refl eq_refl)
    as (Ho & He & _).
  split; [exact Ho|exact He].
Defined.

(** A search request whose candidate has no content: the search is run, its
    result is dropped, and the loop is left.  The request ends after one call
    of the model and one search, and the reply is the text of that response;
    the model never sees the result. *)
Theorem POST_call_without_content
    (w : World) (g : Global) (req : Request) (cs : list Content)
    (r : Response) (call : FunctionCall) (a : Args) :
  apiKeyMissing w = false ->
  toContents (pushedHistory g req) = Some cs ->
  generateContent w 0 (generateSystemPrompt w) cs = Returned r ->
  head (functionCalls r) = Some call ->
  isGoogleSearch (name call) = true ->
  args call = Some a ->
  firstCandidateContent (Some r) = None ->
  outcomeOf (POST w g req) = Responded 200 (MessageBody (replyOf (Some r)))
  /\ log (effectsOf (POST w g req)) = [Generate 0 cs; Search (query a)].
Proof.
  intros Hkey Hcs H1 Hcall Hname Hargs Hc.
  destruct (googleSearch_returns w (query a) (afterCall noEffects cs))
    as (tr & Htool & _).
  assert (round w (generateSystemPrompt w) 0
                {| contents := cs; contentsLength := length cs;
                   fullResponse := None |} noEffects
          = (Returned (Break {| contents := cs; contentsLength := length cs;
                                fullResponse := Some r |}),
             afterSearch (afterCall noEffects cs) (query a))) as Hround.
  { unfold round. rewrite stalled_first. unfold bind. cbn [contents].
    rewrite (first_attempt w _ cs noEffects r H1). cbn [firstCall].
    rewrite Hcall, Hname, Hargs, Htool, Hc. cbn [contentsLength].
    rewrite Nat.ltb_irrefl. reflexivity. }
  rewrite (POST_with_key w g req cs Hkey Hcs). unfold orchestrate, maxToolCalls.
  rewrite (toolLoop_break w _ 4 0 _ _ noEffects _ Hround).
  split; reflexivity.
Qed.

Lemma POST_call_without_content_witness :
  outcomeOf (POST hollowCallWorld None hello)
  = Responded 200 (MessageBody "let me look")
  /\ log (effectsOf (POST hollowCallWorld None hello))
     = [Generate 0 helloContents; Search (Some "cat")].
Proof.
  exact (POST_call_without_content hollowCallWorld None hello helloContents
           hollowCall
           {| name := Some "googleSearch";
              args := Some {| query := Some "cat" |} |}
           {| query := Some "cat" |}
           eq_refl eq_refl eq_refl eq_refl eq_refl eq_refl eq_refl).
Defined.
(** ** The waits of the backoff *)

Lemma doublings_step (b d : Q) (n : nat) :
  In d (doublings b n) -> In (d * 2)%Q (doublings b (S n)).
Proof.
  revert b. induction n as [|n IH]; intros b H; [destruct H|].
  destruct H as [<-|H].
  - right. left. reflexivity.
  - right. apply IH. exact H.
Qed.

Lemma doublings_mono (b d : Q) (n m : nat) :
  (n <= m)%nat -> In d (doublings b n) -> In d (doublings b m).
Proof.
  revert b m. induction n as [|n IH]; intros b m Hle H; [destruct H|].
  destruct m as [|m]; [lia|]. destruct H as [<-|H].
  - left. reflexivity.
  - right. apply IH; [lia|exact H].
Qed.

(** The wait decided for an error that advises none is the current
    backoff: line 180 is not reached. *)
Lemma retryDecision_unadvised (d : Q) (e : Exn) :
  advises e = false -> (retryDecision d e).2 = d.
Proof.
  destruct e as [m|]; simpl; [|reflexivity].
  destruct (statusCodeOf m =? 503)%Z eqn:H503; [reflexivity|].
  destruct (statusCodeOf m =? 429)%Z; [|reflexivity].
  destruct (Js.firstMatch Js.retryInAt m) as [a|]; [discriminate|reflexivity].
Qed.

Lemma retryLoop_waits_backoff (w : World) (sys : string) (cs : list Content)
    (fuel attempt : nat) (d : Q) (s : Effects) :
  neverAdvised w ->
  In d (doublings baseDelay (S attempt)) ->
  Forall (fun ms => In ms backoffValues) (delaysOf (log s)) ->
  Forall (fun ms => In ms backoffValues)
         (delaysOf (log (retryLoop w sys cs fuel attempt d s).2)).
Proof.
  intros Hw. revert attempt d s.
  induction fuel as [|fuel IH]; intros attempt d s Hd Hs; [exact Hs|].
  destruct (retryLoop_attempt_why w sys cs fuel attempt d s)
    as [(r & _ & ->)|[(e & _ & _ & ->)|(e & He & _ & Hlt & ->)]].
  - simpl. rewrite delaysOf_app, app_nil_r. exact Hs.
  - simpl. rewrite delaysOf_app, app_nil_r. exact Hs.
  - apply IH.
    + destruct e as [m|]; unfold nextDelay.
      * destruct (mentions503 m).
        -- apply doublings_step. exact Hd.
        -- eapply doublings_mono; [|exact Hd]. lia.
      * eapply doublings_mono; [|exact Hd]. lia.
    + simpl. rewrite !delaysOf_app. simpl. rewrite app_nil_r.
      apply Forall_app. split; [exact Hs|]. constructor; [|constructor].
      rewrite (retryDecision_unadvised d e (Hw _ _ _ _ He)).
      change (In d (doublings baseDelay 4)).
      eapply doublings_mono; [|exact Hd]. unfold maxRetries in Hlt. lia.
Qed.

Lemma toolLoop_waits_backoff (w : World) (sys : string) (fuel i : nat)
    (v : LoopVars) (s : Effects) :
  neverAdvised w ->
  Forall (fun ms => In ms backoffValues) (delaysOf (log s)) ->
  Forall (fun ms => In ms backoffValues)
         (delaysOf (log (toolLoop w sys fuel i v s).2)).
Proof.
  intros Hw. revert i v s.
  induction fuel as [|fuel IH]; intros i v s Hs; [exact Hs|].
  cbn [toolLoop]. unfold bind.
  destruct (stalled i v) eqn:Hgo.
  { unfold round. rewrite Hgo. exact Hs. }
  pose proof (round_ends w sys i v s Hgo) as Hend.
  pose proof (retryLoop_waits_backoff w sys (contents v) maxRetries 0
                baseDelay s Hw ltac:(left; reflexivity) Hs) as Hexec.
  fold (generateWithRetry w sys (contents v)) in Hexec.
  destruct (round w sys i v s) as [res s2].
  destruct (generateWithRetry w sys (contents v) s) as [[response|e] s1];
    cbn [snd] in Hexec.
  2:{ injection Hend as -> ->. exact Hexec. }
  assert (forall q, Forall (fun ms => In ms backoffValues)
                           (delaysOf (log (afterSearch s1 q))))
    as Hsearch.
  { intros q. simpl. rewrite delaysOf_app, app_nil_r. exact Hexec. }
  pass_end Hend; cbn [snd ret]; auto.
Qed.

(** When no error thrown by the model is a 429 advising a wait, line 180 is
    never reached and every wait of a request is the backoff of the moment:
    one of the four values 2000, 4000, 8000 and 16000 ms, whatever the
    errors, the rounds and the searches. *)
Theorem POST_unadvised_waits_are_backoff
    (w : World) (g : Global) (req : Request) :
  neverAdvised w ->
  Forall (fun ms => In ms backoffValues)
         (delaysOf (log (effectsOf (POST w g req)))).
Proof.
  intros Hw. unfold POST, effectsOf.
  destruct (apiKeyMissing w); [constructor|].
  destruct (toContents _) as [cs|]; [|constructor].
  pose proof (toolLoop_waits_backoff w (generateSystemPrompt w) maxToolCalls 0
                {| contents := cs; contentsLength := length cs;
                   fullResponse := None |}
                noEffects Hw ltac:(constructor)) as Hloop.
  fold (orchestrate w (generateSystemPrompt w) cs) in Hloop.
  destruct (orchestrate w (generateSystemPrompt w) cs noEffects)
    as [[v|e] eff]; exact Hloop.
Qed.

Lemma POST_unadvised_waits_are_backoff_witness :
  neverAdvised (failsTwice overloaded)
  /\ delaysOf (log (effectsOf (POST (failsTwice overloaded) None hello)))
     = [2000; 4000]%Q
  /\ Forall (fun ms => In ms backoffValues)
            (delaysOf (log (effectsOf (POST (failsTwice overloaded) None
                                            hello)))).
Proof.
  assert (neverAdvised (failsTwice overloaded)) as Hw.
  { intros n sys cs e H. destruct n as [|[|n]]; simpl in H;
      [injection H as <-; vm_compute; reflexivity
      |injection H as <-; vm_compute; reflexivity
      |discriminate H]. }
  split; [exact Hw|]. split; [vm_compute; reflexivity|].
  exact (POST_unadvised_waits_are_backoff (failsTwice overloaded) None hello
           Hw).
Defined.

(** ** Responses and sessions *)

(** Every response the handler builds (lines 90, 244 and 272) has one of six
    statuses, and its body is a message exactly when the status is 200 and an
    error otherwise. *)
Theorem POST_response_statuses (w : World) (g : Global) (req : Request)
    (status : Z) (body : Body) :
  outcomeOf (POST w g req) = Responded status body ->
  In status statuses
  /\ (status = 200%Z <-> exists reply : string, body = MessageBody reply).
Proof.
  unfold POST, outcomeOf. fold (pushedHistory g req).
  destruct (apiKeyMissing w).
  { cbn [fst]. intros H. injection H as <- <-. split; [simpl; tauto|].
    split; [discriminate|intros [reply H]; discriminate H]. }
  destruct (toContents (pushedHistory g req)) as [cs|]; [|discriminate].
  destruct (orchestrate w (generateSystemPrompt w) cs noEffects) as [[v|e] eff];
    cbn [fst].
  - intros H. injection H as <- <-.
    split; [left; reflexivity|]. split; [eauto|reflexivity].
  - destruct e as [m|]; unfold errorResponse.
    + destruct (statusCodeOf m =? 503)%Z;
        [|destruct (statusCodeOf m =? 429)%Z;
          [|destruct (Js.includes m "API_KEY");
            [|destruct (statusCodeOf m =? 400)%Z]]];
        intros H; injection H as <- <-;
        (split; [simpl; tauto|]);
        (split; [discriminate|intros [reply H]; discriminate H]).
    + intros H. injection H as <- <-. split; [simpl; tauto|].
      split; [discriminate|intros [reply H]; discriminate H].
Qed.

Lemma POST_response_statuses_witness :
  In 401%Z statuses
  /\ (401%Z = 200%Z
      <-> exists reply : string, credentialProblem = MessageBody reply).
Proof.
  exact (POST_response_statuses badKeyWorld None hello 401
           credentialProblem eq_refl).
Defined.

(** Two requests of one session, served one after the other with a key
    configured, leave the history of before, then the last message of the
    first request and the assistant turn of its reply if it got one, then
    the same for the second.  In particular a message resent after a failure
    is stored twice. *)
Theorem POST_twice_history (w1 w2 : World) (g : Global) (sid : string)
    (messages1 messages2 : list Message) :
  apiKeyMissing w1 = false ->
  apiKeyMissing w2 = false ->
  let run1 := POST w1 g {| messages := messages1; sessionId := sid |} in
  let run2 := POST w2 (globalOf run1)
                   {| messages := messages2; sessionId := sid |} in
  storedHistory (globalOf run2) sid
  = (storedHistory g sid
       ++ last messages1 :: assistantTurn (outcomeOf run1)
       ++ last messages2 :: assistantTurn (outcomeOf run2))%list.
Proof.
  intros Hkey1 Hkey2 run1 run2. unfold run2.
  rewrite POST_history, Hkey2. cbn [sessionId].
  destruct (decide (sid = sid)); [|congruence].
  unfold pushedHistory. cbn [sessionId messages]. unfold run1.
  rewrite POST_history, Hkey1. cbn [sessionId].
  destruct (decide (sid = sid)); [|congruence].
  unfold pushedHistory. cbn [sessionId messages].
  rewrite <- !app_assoc. reflexivity.
Qed.

Lemma POST_twice_history_witness :
  storedHistory
    (globalOf (POST answeringWorld
                    (globalOf (POST (alwaysFailing badRequest) None hello))
                    hello)) "s1"
  = [Some {| role := user; content := "hello" |};
     Some {| role := user; content := "hello" |};
     Some {| role := assistant; content := "hi" |}].
Proof.
  exact (POST_twice_history (alwaysFailing badRequest) answeringWorld None
           "s1" (messages hello) (messages hello) eq_refl eq_refl).
Defined.

(** The session remembers the exchange and nothing of the tools: after a
    request that got a reply, the first input of the next request of the
    session is the former contents, the user turn and the reply of the first
    request as a model turn, then the new message. *)
Theorem POST_next_input (w1 w2 : World) (g : Global) (sid : string)
    (earlier1 earlier2 : list Message) (m1 m2 : Message)
    (cs0 : list Content) (reply : string) :
  apiKeyMissing w2 = false ->
  toContents (storedHistory g sid) = Some cs0 ->
  let run1 := POST w1 g {| messages := earlier1 ++ [m1]; sessionId := sid |} in
  let run2 := POST w2 (globalOf run1)
                   {| messages := earlier2 ++ [m2]; sessionId := sid |} in
  outcomeOf run1 = Responded 200 (MessageBody reply) ->
  head (inputsOf (log (effectsOf run2)))
  = Some (cs0 ++ [toContent m1;
                  toContent {| role := assistant; content := reply |};
                  toContent m2])%list.
Proof.
  intros Hkey2 Hcs0 run1 run2 Hok.
  assert (apiKeyMissing w1 = false) as Hkey1.
  { destruct (apiKeyMissing w1) eqn:Hk; [|reflexivity].
    unfold run1, POST, outcomeOf in Hok. rewrite Hk in Hok. discriminate Hok. }
  assert (storedHistory (globalOf run1) sid
          = (storedHistory g sid
               ++ [Some m1; Some {| role := assistant; content := reply |}])%list)
    as Hstored.
  { unfold run1. rewrite POST_history, Hkey1. cbn [sessionId].
    destruct (decide (sid = sid)); [|congruence].
    fold run1. rewrite Hok. unfold pushedHistory. cbn [sessionId messages].
    rewrite last_snoc, <- app_assoc. reflexivity. }
  assert (toContents (pushedHistory (globalOf run1)
                        {| messages := earlier2 ++ [m2]; sessionId := sid |})
          = Some (cs0 ++ [toContent m1;
                          toContent {| role := assistant; content := reply |};
                          toContent m2])%list) as Hcs.
  { unfold pushedHistory. cbn [sessionId messages].
    rewrite last_snoc, Hstored.
    replace (cs0 ++ [toContent m1;
                     toContent {| role := assistant; content := reply |};
                     toContent m2])%list
      with (((cs0 ++ [toContent m1])
               ++ [toContent {| role := assistant; content := reply |}])
              ++ [toContent m2])%list
      by (rewrite <- !app_assoc; reflexivity).
    replace (storedHistory g sid
               ++ [Some m1; Some {| role := assistant; content := reply |}])%list
      with ((storedHistory g sid ++ [Some m1])
              ++ [Some {| role := assistant; content := reply |}])%list
      by (rewrite <- !app_assoc; reflexivity).
    repeat apply toContents_snoc. exact Hcs0. }
  unfold run2. rewrite (POST_with_key w2 _ _ _ Hkey2 Hcs).
  unfold orchestrate, maxToolCalls.
  destruct (toolLoop_log_begins w2 (generateSystemPrompt w2) 4 0
              {| contents := (cs0 ++ [toContent m1;
                     toContent {| role := assistant; content := reply |};
                     toContent m2])%list;
                 contentsLength := length (cs0 ++ [toContent m1;
                     toContent {| role := assistant; content := reply |};
                     toContent m2])%list;
                 fullResponse := None |}
              noEffects (stalled_first _)) as [l Hl].
  destruct (toolLoop _ _ _ _ _ _) as [[v|e] eff]; cbn [snd] in Hl;
    unfold effectsOf; cbn [snd]; rewrite Hl; reflexivity.
Qed.

Lemma POST_next_input_witness :
  head (inputsOf (log (effectsOf
          (POST answeringWorld (globalOf (POST searchOnceWorld None hello))
                hello))))
  = Some [toContent {| role := user; content := "hello" |};
          toContent {| role := assistant; content := "cats purr" |};
          toContent {| role := user; content := "hello" |}].
Proof.
  exact (POST_next_input searchOnceWorld answeringWorld None "s1" [] []
           {| role := user; content := "hello" |}
           {| role := user; content := "hello" |} [] "cats purr"
           eq_refl eq_refl eq_refl).
Defined.

Lemma toContents_app_None (h1 h2 : History) :
  toContents h1 = None -> toContents (h1 ++ h2) = None.
Proof.
  induction h1 as [|[msg|] h1 IH]; intros H; simpl in *.
  - discriminate H.
  - destruct (toContents h1); [discriminate H|]. rewrite IH; reflexivity.
  - reflexivity.
Qed.

(** An undefined entry spoils a session for good.  A request with an empty
    [messages] array, served with a key, leaves such an entry; and once the
    history of a session holds one, it holds one after every later request,
    and every request of that session served with a key is left by the
    exception of line 108 without any call of the model. *)
Theorem session_spoiled_for_good (w : World) (g : Global) (req : Request)
    (sid : string) :
  (apiKeyMissing w = false ->
   messages req = [] ->
   toContents (storedHistory (globalOf (POST w g req)) (sessionId req)) = None)
  /\ (toContents (storedHistory g sid) = None ->
      toContents (storedHistory (globalOf (POST w g req)) sid) = None
      /\ (apiKeyMissing w = false ->
          sessionId req = sid ->
          outcomeOf (POST w g req) = Rejected roleUndefined
          /\ effectsOf (POST w g req) = noEffects)).
Proof.
  split.
  - intros Hkey Hnone. rewrite POST_history, Hkey.
    destruct (decide (sessionId req = sessionId req)); [|congruence].
    unfold pushedHistory. rewrite Hnone. simpl last.
    apply toContents_app_None. apply toContents_undefined.
  - intros Hbad. split.
    + rewrite POST_history. destruct (apiKeyMissing w); [exact Hbad|].
      destruct (decide (sessionId req = sid)) as [<-|]; [|exact Hbad].
      unfold pushedHistory. rewrite <- app_assoc.
      apply toContents_app_None. exact Hbad.
    + intros Hkey <-. unfold POST, outcomeOf, effectsOf. rewrite Hkey.
      rewrite (toContents_app_None _ [last (messages req)] Hbad).
      split; reflexivity.
Qed.

Lemma session_spoiled_for_good_witness :
  outcomeOf
    (POST answeringWorld
          (globalOf (POST answeringWorld None
                          {| messages := []; sessionId := "s1" |}))
          hello)
  = Rejected roleUndefined.
Proof.
  destruct (session_spoiled_for_good answeringWorld
              (globalOf (POST answeringWorld None
                              {| messages := []; sessionId := "s1" |}))
              hello "s1") as [_ Hlater].
  destruct Hlater as [_ Hrej].
  - exact (proj1 (session_spoiled_for_good answeringWorld None
                    {| messages := []; sessionId := "s1" |} "s1")
                 eq_refl eq_refl).
  - exact (proj1 (Hrej eq_refl eq_refl)).
Defined.

(** ** Conversions and texts *)

Lemma toContent_inj (m1 m2 : Message) :
  toContent m1 = toContent m2 -> m1 = m2.
Proof.
  destruct m1 as [[] c1], m2 as [[] c2]; unfold toContent; simpl;
    intros H; injection H; intros; subst; try reflexivity; discriminate.
Qed.

(** The conversion of line 108 loses nothing and fails on undefined entries
    only: it gives one content per entry, histories that convert to the same
    contents are equal, and it throws exactly when an entry is undefined. *)
Theorem toContents_faithful (h : History) :
  (toContents h = None <-> In None h)
  /\ (forall cs : list Content,
        toContents h = Some cs -> length cs = length h)
  /\ (forall (h' : History) (cs : list Content),
        toContents h = Some cs -> toContents h' = Some cs -> h = h').
Proof.
  induction h as [|[msg|] h (IHnone & IHlen & IHinj)]; simpl.
  - split; [split; [discriminate|intros []]|].
    split; [intros cs H; injection H as <-; reflexivity|].
    intros [|[m'|] h'] cs H H'; simpl in H'; try reflexivity.
    + injection H as <-. destruct (toContents h'); discriminate H'.
    + discriminate H'.
  - split; [|split].
    + destruct (toContents h) as [cs|].
      * split; [discriminate|].
        intros [H|H]; [discriminate H|]. apply IHnone in H. discriminate H.
      * split; [intros _; right; apply IHnone; reflexivity|reflexivity].
    + intros cs H. destruct (toContents h) as [cs'|]; [|discriminate H].
      injection H as <-. simpl. rewrite (IHlen cs' eq_refl). reflexivity.
    + intros h' cs H H'. destruct (toContents h) as [cs1|]; [|discriminate H].
      injection H as <-.
      destruct h' as [|[m'|] h']; simpl in H'; try discriminate H'.
      destruct (toContents h') as [cs2|] eqn:H2; [|discriminate H'].
      remember (toContent m') as x eqn:Hx.
      remember (toContent msg) as y eqn:Hy.
      injection H' as -> ->. rewrite Hx in Hy.
      rewrite (toContent_inj _ _ Hy), (IHinj h' cs1 eq_refl H2). reflexivity.
  - split; [split; [intros _; left; reflexivity|reflexivity]|].
    split; discriminate.
Qed.

Lemma toContents_faithful_witness :
  length helloContents = 1%nat.
Proof.
  exact (proj1 (proj2 (toContents_faithful
                         [Some {| role := user; content := "hello" |}]))
               helloContents eq_refl).
Defined.

Lemma stripPrefix_spec (p s r : string) :
  Js.stripPrefix p s = Some r <-> s = p +:+ r.
Proof.
  revert s. induction p as [|a p IH]; intros s; simpl.
  - split; [intros H; injection H as <-; reflexivity|intros ->; reflexivity].
  - destruct s as [|b s]; [split; discriminate|].
    destruct (Ascii.eqb a b) eqn:Hab.
    + apply Ascii.eqb_eq in Hab as <-. rewrite IH.
      split; [intros ->; reflexivity|intros H; injection H as <-; reflexivity].
    + split; [discriminate|]. intros H. injection H as <- _.
      rewrite Ascii.eqb_refl in Hab. discriminate Hab.
Qed.

(** The two substring tests of the route, at lines 189 and 261, hold exactly
    when the text occurs somewhere in the message. *)
Theorem includes_anywhere (s p : string) :
  Js.includes s p = true
  <-> exists pre post : string, s = pre +:+ p +:+ post.
Proof.
  unfold Js.includes. split.
  - intros H.
    assert (exists r, Js.firstMatch (Js.stripPrefix p) s = Some r) as [r Hr]
      by (destruct (Js.firstMatch (Js.stripPrefix p) s); [eauto|discriminate]).
    clear H. induction s as [|c s IH]; cbn [Js.firstMatch] in Hr.
    + destruct (Js.stripPrefix p "") as [x|] eqn:Hx; [|discriminate Hr].
      apply stripPrefix_spec in Hx. exists "", x. exact Hx.
    + destruct (Js.stripPrefix p (String c s)) as [x|] eqn:Hx.
      * apply stripPrefix_spec in Hx. exists "", x. exact Hx.
      * destruct (IH Hr) as (pre & post & ->).
        exists (String c pre), post. reflexivity.
  - intros (pre & post & ->).
    assert (is_Some (Js.firstMatch (Js.stripPrefix p) (pre +:+ p +:+ post)))
      as [x ->]; [|reflexivity].
    induction pre as [|c pre IH]; simpl.
    + exists post. apply JsFacts.firstMatch_here. apply stripPrefix_spec.
      reflexivity.
    + apply JsFacts.firstMatch_later. exact IH.
Qed.

Lemma includes_anywhere_witness :
  Js.includes "reason: API_KEY_INVALID" "API_KEY" = true.
Proof.
  apply (proj2 (includes_anywhere "reason: API_KEY_INVALID" "API_KEY")).
  exists "reason: ", "_INVALID". reflexivity.
Defined.

Lemma quoteFree_not_a_status (t : string) :
  quoteFree t = true -> Js.codeAt t = None.
Proof.
  intros H. unfold Js.codeAt.
  destruct (Js.stripPrefix Js.codeKey t) as [rest|] eqn:Hs; [|reflexivity].
  apply stripPrefix_spec in Hs. subst t. vm_compute in H. discriminate H.
Qed.

Lemma quoteFree_no_status (s : string) :
  quoteFree s = true -> Js.firstMatch Js.codeAt s = None.
Proof.
  induction s as [|c s IH]; intros H; cbn [Js.firstMatch];
    rewrite (quoteFree_not_a_status _ H); [reflexivity|].
  simpl in H. apply andb_true_iff in H as [_ H]. exact (IH H).
Qed.

(** The status answered for an unknown function depends on its name.  For a
    name without double quote the outer catch finds no status code in the
    message of line 232, so the answer is 401 when the name contains API_KEY
    and 500 otherwise; an absent name gives 500. *)
Theorem unknown_function_status (n : string) :
  quoteFree n = true ->
  errorResponse (unknownFunction (Some n))
  = (if Js.includes n "API_KEY"
     then Responded 401 credentialProblem
     else Responded 500 serverError)
  /\ errorResponse (unknownFunction None) = Responded 500 serverError.
Proof.
  intros Hn. split; [|reflexivity].
  unfold unknownFunction, errorResponse, showName, statusCodeOf.
  rewrite (quoteFree_no_status ("Unknown function call: " +:+ n)) by exact Hn.
  change (Js.includes ("Unknown function call: " +:+ n) "API_KEY")
    with (Js.includes n "API_KEY").
  destruct (Js.includes n "API_KEY"); reflexivity.
Qed.

Lemma unknown_function_status_witness :
  errorResponse (unknownFunction (Some "lookup")) = Responded 500 serverError
  /\ errorResponse (unknownFunction (Some "readAPI_KEY"))
     = Responded 401 credentialProblem.
Proof.
  split.
  - exact (proj1 (unknown_function_status "lookup" eq_refl)).
  - exact (proj1 (unknown_function_status "readAPI_KEY" eq_refl)).
Defined.
